(** * GitHub Readme Fetcher: the request pipeline of [server.js]

    A shallow embedding of [parseGitHubUrl], [fetchRepoReadme], the
    [POST /api/fetch-readme] handler and the global error middleware, with
    the properties of the specification that are decided by that code.

    The server leans on five collaborators that are not part of the
    repository: the platform's [URL] constructor, [node-cache], [octokit],
    [marked] and [DOMPurify].  The first, and the three that talk to the
    outside or render text, are operations of the class [Env]: every
    general theorem holds for whatever they compute.  [node-cache] is
    modelled in [Module NodeCache].  One concrete environment, [ref_env],
    is used for the closed examples.

    The script of the page (the [submit] listener, [toggleLoading],
    [showError], [resetView]) is embedded over a record of the elements it
    touches, with [trim] and [fetch] as operations of the class [Browser];
    [browser_of] wires the page to the handler. *)

From Stdlib Require Import ZArith NArith List Ascii String Lia Bool.
From stdpp Require Import base option strings gmap.

Import ListNotations.
Set Warnings "-register-all,-clear-no-such-hyp".
Local Open Scope string_scope.
Local Open Scope list_scope.

(* ===================================================================== *)
(** ** JavaScript values and errors *)
(* ===================================================================== *)

(** The values a JSON body can hold, and [undefined] for a missing
    property.  The code never computes with a number: it only prints one or
    tests its truthiness.  So a number is carried by the text that
    [Number.prototype.toString] gives it, which names it: [42], [-0.5],
    [1e+21], [NaN]; zero, of either sign, is [0]. *)
Inductive JsValue : Type :=
| JsUndefined
| JsNull
| JsBool (b : bool)
| JsNumber (repr : string)
| JsString (s : string)
| JsArray (items : list JsValue)
| JsObject (fields : list (string * JsValue)).

(** The exceptions that reach the code: the built-in [TypeError], the plain
    [Error] thrown by the rendering libraries (neither has a [status]
    property), and octokit's [RequestError], which carries the HTTP status
    of the upstream response. *)
Inductive JsError : Type :=
| TypeError (message : string)
| PlainError (message : string)
| RequestError (status : Z) (message : string).

(** [error.status]; [None] is [undefined]. *)
Definition err_status (e : JsError) : option Z :=
  match e with
  | RequestError st _ => Some st
  | _ => None
  end.

Definition err_message (e : JsError) : string :=
  match e with
  | TypeError m | PlainError m | RequestError _ m => m
  end.

(** [error.status === n] *)
Definition status_is (e : JsError) (n : Z) : bool :=
  match err_status e with
  | Some st => Z.eqb st n
  | None => false
  end.

(** A computation that returns or throws. *)
Inductive Exc (A : Type) : Type :=
| Ok (a : A)
| Throw (e : JsError).
Arguments Ok {A} a.
Arguments Throw {A} e.

(** A library call whose only failure is a plain [Error]. *)
Definition plain {A} (r : A + string) : Exc A :=
  match r with
  | inl a => Ok a
  | inr m => Throw (PlainError m)
  end.

Module ExcMonad.
Definition ret {A} (a : A) : Exc A := Ok a.
Definition bind {A B} (m : Exc A) (k : A -> Exc B) : Exc B :=
  match m with
  | Ok a => k a
  | Throw e => Throw e
  end.
(** [try { body } catch { handler }] *)
Definition try_catch {A} (body : Exc A) (handler : JsError -> Exc A) : Exc A :=
  match body with
  | Ok a => Ok a
  | Throw e => handler e
  end.
End ExcMonad.

(* ===================================================================== *)
(** ** Strings as the parser uses them *)
(* ===================================================================== *)

(** [s.split(sep)] for a one-character separator: never empty, [""] splits
    into [[""]]. *)
Fixpoint split (sep : ascii) (s : string) : list string :=
  match s with
  | EmptyString => [EmptyString]
  | String c rest =>
      if Ascii.eqb c sep then EmptyString :: split sep rest
      else match split sep rest with
           | [] => [String c EmptyString]
           | seg :: segs => String c seg :: segs
           end
  end.

(** [s.includes(c)] *)
Fixpoint has_char (c : ascii) (s : string) : bool :=
  match s with
  | EmptyString => false
  | String d rest => Ascii.eqb d c || has_char c rest
  end.

(** [Boolean(s)] on a string: the empty string is the only falsy one. *)
Definition truthy (s : string) : bool := negb (String.eqb s "").

(** [s.replace(/^www\./, "")] *)
Definition strip_www (s : string) : string :=
  match s with
  | String "w" (String "w" (String "w" (String "." rest))) => rest
  | _ => s
  end.

(** [pathname.split("/").filter(Boolean)] *)
Definition segments (pathname : string) : list string :=
  List.filter truthy (split "/" pathname).

(* ===================================================================== *)
(** ** The collaborators *)
(* ===================================================================== *)

(** The two properties of a [URL] object that the parser reads. *)
Record URL : Type := { hostname : string; pathname : string }.

(** What one call of [octokit.request] does: it settles with the raw body or
    rejects, after some milliseconds. *)
Record Reply : Type := { result : Exc string; elapsed : N }.

Class Env : Type := {
  (** [new URL(input)]: converts its argument to a string and parses it;
      throws a [TypeError] when that is not an absolute URL. *)
  new_URL : JsValue -> Exc URL;
  (** [octokit.request("GET /repos/{owner}/{repo}/readme", ...)] issued at
      the given time (milliseconds). *)
  octokit_request : N -> string -> string -> Reply;
  (** [marked.parse(markdown)] *)
  marked_parse : string -> string + string;
  (** [DOMPurify.sanitize(html)] *)
  sanitize : string -> string + string
}.

(* ===================================================================== *)
(** ** [parseGitHubUrl] *)
(* ===================================================================== *)

Record RepoRef : Type := { owner : string; repo : string }.

Section Parser.
Context `{E : Env}.
Import ExcMonad.

(** [null] is [None]. *)
Definition parseGitHubUrl (inputUrl : JsValue) : Exc (option RepoRef) :=
  try_catch
    (bind (new_URL inputUrl) (fun urlObj =>
       let normalizedHost := strip_www (hostname urlObj) in
       if negb (String.eqb normalizedHost "github.com") then ret None
       else
         let parts := segments (pathname urlObj) in
         if (List.length parts <? 2)%nat then ret None
         else
           match parts with
           | p0 :: p1 :: _ => ret (Some {| owner := p0; repo := p1 |})
           | _ => ret None
           end))
    (fun _ => ret None).
End Parser.

(* ===================================================================== *)
(** ** The cache: [new NodeCache({ stdTTL: 3600 })] *)
(* ===================================================================== *)

Module NodeCache.

(** Modelled from the spec: the [node-cache] package is a dependency and its
    code is not in the repository.  Section 4.2 gives it get-by-key,
    set-by-key with a fixed time-to-live and automatic expiry; the model
    follows the package's [set]/[get]: [set] stamps the entry with the time
    after which it is dead, [get] returns the value unless that time has
    passed.  An expired entry is never returned again, so its eviction is
    not observable and the store keeps it.  Times are milliseconds, as
    [Date.now()] gives them. *)
Record Entry : Type := { v : string; t : N }.

(** The one option the server passes, in seconds. *)
Definition stdTTL : N := 3600.

Definition wrap (now : N) (value : string) : Entry :=
  {| v := value;
     t := if (stdTTL =? 0)%N then 0%N else (now + stdTTL * 1000)%N |}.

(** An entry is alive unless it has a deadline and the deadline is past. *)
Definition check (now : N) (e : Entry) : bool :=
  negb (negb (t e =? 0)%N && (t e <? now)%N).

(** [cache.get(key)]; [None] is [undefined]. *)
Definition get (now : N) (key : string) (data : gmap string Entry) : option string :=
  match data !! key with
  | Some e => if check now e then Some (v e) else None
  | None => None
  end.

(** [cache.set(key, value)] *)
Definition set (now : N) (key value : string) (data : gmap string Entry)
  : gmap string Entry :=
  <[key := wrap now value]> data.

End NodeCache.

(* ===================================================================== *)
(** ** The server's state and its effects *)
(* ===================================================================== *)

Inductive Body : Type :=
| ErrorBody (error : string)
| HtmlBody (html : string).

Record Response : Type := { code : Z; body : Body }.

(** What the process holds and what it has done: the clock, the cache, the
    upstream requests issued, the responses written and the console. *)
Record World : Type := {
  clock : N;
  cache : gmap string NodeCache.Entry;
  upstream_calls : list (string * string);
  sent : list Response;
  console : list string
}.

(** A statement of an async function, run to completion: it reads and
    changes the world and returns or throws. *)
Definition M (A : Type) : Type := World -> Exc A * World.

Definition ret {A} (a : A) : M A := fun w => (Ok a, w).

Definition bind {A B} (m : M A) (k : A -> M B) : M B :=
  fun w =>
    match m w with
    | (Ok a, w') => k a w'
    | (Throw e, w') => (Throw e, w')
    end.

(** [try { body } catch (error) { handler }]: the effects of the body up to
    the throw stay. *)
Definition try_catch {A} (body : M A) (handler : JsError -> M A) : M A :=
  fun w =>
    match body w with
    | (Ok a, w') => (Ok a, w')
    | (Throw e, w') => handler e w'
    end.

Definition lift {A} (r : Exc A) : M A := fun w => (r, w).

Declare Scope js_scope.
Delimit Scope js_scope with js.
Notation "x <- m ;; k" := (bind m (fun x => k))
  (at level 100, m at next level, right associativity) : js_scope.
Notation "m ;;; k" := (bind m (fun _ => k))
  (at level 100, right associativity) : js_scope.

Definition console_log (line : string) : M unit :=
  fun w => (Ok tt, {| clock := clock w; cache := cache w;
                      upstream_calls := upstream_calls w; sent := sent w;
                      console := console w ++ [line] |}).

Definition cache_get (key : string) : M (option string) :=
  fun w => (Ok (NodeCache.get (clock w) key (cache w)), w).

Definition cache_set (key value : string) : M unit :=
  fun w => (Ok tt, {| clock := clock w;
                      cache := NodeCache.set (clock w) key value (cache w);
                      upstream_calls := upstream_calls w; sent := sent w;
                      console := console w |}).

(** [res.status(code).json(body)] *)
Definition respond (st : Z) (b : Body) : M unit :=
  fun w => (Ok tt, {| clock := clock w; cache := cache w;
                      upstream_calls := upstream_calls w;
                      sent := sent w ++ [{| code := st; body := b |}];
                      console := console w |}).

(** The world after the console got one more line. *)
Definition logged (line : string) (w : World) : World :=
  snd (console_log line w).

Section Server.
Context `{E : Env}.
Local Open Scope js_scope.

(** [await octokit.request(...)]: the call is recorded, the clock moves on
    by the time the reply took. *)
Definition request (owner repo : string) : M string :=
  fun w =>
    let reply := octokit_request (clock w) owner repo in
    (result reply,
     {| clock := (clock w + elapsed reply)%N; cache := cache w;
        upstream_calls := upstream_calls w ++ [(owner, repo)];
        sent := sent w; console := console w |}).

Definition fetchRepoReadme (owner repo : string) : M string :=
  let cacheKey := owner +:+ "/" +:+ repo in
  let miss : M string :=
    console_log ("[API Fetch] " +:+ cacheKey) ;;;
    data <- request owner repo ;;
    cache_set cacheKey data ;;;
    ret data in
  cachedData <- cache_get cacheKey ;;
  match cachedData with
  | Some s =>
      if truthy s then
        console_log ("[Cache Hit] " +:+ cacheKey) ;;;
        ret s
      else miss
  | None => miss
  end.

(** [const { url } = req.body]: a [TypeError] on [undefined] and [null],
    [undefined] when the property is missing. *)
Fixpoint get_field (name : string) (fields : list (string * JsValue)) : JsValue :=
  match fields with
  | [] => JsUndefined
  | (k, x) :: rest => if String.eqb k name then x else get_field name rest
  end.

Definition destructure_url (req_body : JsValue) : Exc JsValue :=
  match req_body with
  | JsUndefined | JsNull =>
      Throw (TypeError "Cannot destructure property 'url'")
  | JsObject fields => Ok (get_field "url" fields)
  | _ => Ok JsUndefined
  end.

Definition invalid_url_message : string :=
  "Invalid URL. Format: https://github.com/:owner/:repo".
Definition not_found_message : string := "Repository or Readme not found.".
Definition rate_limit_message : string := "GitHub API rate limit exceeded.".
Definition internal_error_message : string := "Internal Server Error".

(** The global error middleware, which [next(error)] reaches. *)
Definition errorMiddleware (err : JsError) : M unit :=
  console_log ("Unhandled Error: " +:+ err_message err) ;;;
  respond 500 (ErrorBody internal_error_message).

Definition next (err : JsError) : M unit := errorMiddleware err.

(** [app.post("/api/fetch-readme", ...)] on a request with body [req_body]. *)
Definition handler (req_body : JsValue) : M unit :=
  try_catch
    (url <- lift (destructure_url req_body) ;;
     repoInfo <- lift (parseGitHubUrl url) ;;
     match repoInfo with
     | None => respond 400 (ErrorBody invalid_url_message)
     | Some r =>
         markdown <- fetchRepoReadme (owner r) (repo r) ;;
         rawHtml <- lift (plain (marked_parse markdown)) ;;
         cleanHtml <- lift (plain (sanitize rawHtml)) ;;
         respond 200 (HtmlBody cleanHtml)
     end)
    (fun error =>
       if status_is error 404 then
         respond 404 (ErrorBody not_found_message)
       else if status_is error 403 || status_is error 429 then
         respond 429 (ErrorBody rate_limit_message)
       else next error).

End Server.

(* ===================================================================== *)
(** ** A reference environment *)
(* ===================================================================== *)

(** [ToString] on the values of a request body, as [new URL] applies it to
    its argument. *)
Fixpoint ToString (x : JsValue) : string :=
  match x with
  | JsUndefined => "undefined"
  | JsNull => "null"
  | JsBool true => "true"
  | JsBool false => "false"
  | JsNumber repr => repr
  | JsString s => s
  | JsArray items =>
      (* [Array.prototype.join]: [undefined] and [null] print as nothing *)
      let element (y : JsValue) : string :=
        match y with
        | JsUndefined | JsNull => ""
        | _ => ToString y
        end in
      (fix join (l : list JsValue) : string :=
         match l with
         | [] => ""
         | [y] => element y
         | y :: rest => element y +:+ "," +:+ join rest
         end) items
  | JsObject _ => "[object Object]"
  end.

(** The URL parser of the platform, for the inputs the examples use.  It
    follows the WHATWG basic URL parser (no base URL) on ASCII input:
    scheme, authority with credentials and port, host, and the path with
    its dot segments.  What it does not cover is reported as [Unsupported]
    and not guessed: non-ASCII input, [file:] URLs, and hosts that are IP
    addresses, carry percent escapes or have a punycode label. *)
Module WhatwgURL.

Inductive Parsed : Type :=
| Url (u : URL)
| Failure
| Unsupported.

Definition code (c : ascii) : N := N_of_ascii c.
Definition is_c0_or_space (c : ascii) : bool := (code c <=? 32)%N.
Definition is_tab_or_newline (c : ascii) : bool :=
  (code c =? 9)%N || (code c =? 10)%N || (code c =? 13)%N.
Definition is_upper (c : ascii) : bool := (65 <=? code c)%N && (code c <=? 90)%N.
Definition is_lower (c : ascii) : bool := (97 <=? code c)%N && (code c <=? 122)%N.
Definition is_alpha (c : ascii) : bool := is_upper c || is_lower c.
Definition is_digit (c : ascii) : bool := (48 <=? code c)%N && (code c <=? 57)%N.
Definition is_ascii (c : ascii) : bool := (code c <? 128)%N.
Definition lower (c : ascii) : ascii :=
  if is_upper c then ascii_of_N (code c + 32) else c.

Fixpoint map_string (f : ascii -> ascii) (s : string) : string :=
  match s with
  | EmptyString => EmptyString
  | String c rest => String (f c) (map_string f rest)
  end.

Fixpoint all_chars (p : ascii -> bool) (s : string) : bool :=
  match s with
  | EmptyString => true
  | String c rest => p c && all_chars p rest
  end.

Fixpoint remove_chars (p : ascii -> bool) (s : string) : string :=
  match s with
  | EmptyString => EmptyString
  | String c rest => if p c then remove_chars p rest else String c (remove_chars p rest)
  end.

Fixpoint drop_while (p : ascii -> bool) (s : string) : string :=
  match s with
  | EmptyString => EmptyString
  | String c rest => if p c then drop_while p rest else s
  end.

(** The longest prefix with no character in [p], and what follows it. *)
Fixpoint break (p : ascii -> bool) (s : string) : string * string :=
  match s with
  | EmptyString => (EmptyString, EmptyString)
  | String c rest =>
      if p c then (EmptyString, s)
      else let (a, b) := break p rest in (String c a, b)
  end.

(** Split at the last [@], if there is one. *)
Fixpoint split_last_at (s : string) : option (string * string) :=
  match s with
  | EmptyString => None
  | String c rest =>
      match split_last_at rest with
      | Some (a, b) => Some (String c a, b)
      | None => if Ascii.eqb c "@" then Some (EmptyString, rest) else None
      end
  end.

(** [s.split] on any character in [p]. *)
Fixpoint split_where (p : ascii -> bool) (s : string) : list string :=
  match s with
  | EmptyString => [EmptyString]
  | String c rest =>
      if p c then EmptyString :: split_where p rest
      else match split_where p rest with
           | [] => [String c EmptyString]
           | seg :: segs => String c seg :: segs
           end
  end.

Definition one_of (set : string) (c : ascii) : bool :=
  negb (all_chars (fun d => negb (Ascii.eqb c d)) set).

(** Leading and trailing C0 controls and spaces go, then every tab and
    newline. *)
Definition strip (s : string) : string :=
  remove_chars is_tab_or_newline
    (String.rev (drop_while is_c0_or_space
       (String.rev (drop_while is_c0_or_space s)))).

(** The scheme, lower-cased, and what follows its colon. *)
Definition parse_scheme (s : string) : option (string * string) :=
  match s with
  | String c rest =>
      if is_alpha c then
        let (name, tail) :=
          break (fun d => negb (is_alpha d || is_digit d || one_of "+-." d)) rest in
        match tail with
        | String ":" after => Some (map_string lower (String c name), after)
        | _ => None
        end
      else None
  | EmptyString => None
  end.

Definition is_special (scheme : string) : bool :=
  existsb (String.eqb scheme) ["http"; "https"; "ws"; "wss"; "ftp"].

Definition hex_digit (n : N) : ascii :=
  if (n <? 10)%N then ascii_of_N (48 + n) else ascii_of_N (55 + n).

(** Percent-encode the characters in [p]. *)
Fixpoint percent_encode (p : ascii -> bool) (s : string) : string :=
  match s with
  | EmptyString => EmptyString
  | String c rest =>
      if p c then
        String "%" (String (hex_digit (code c / 16))
          (String (hex_digit (code c mod 16)) (percent_encode p rest)))
      else String c (percent_encode p rest)
  end.

Definition in_c0_control_set (c : ascii) : bool :=
  (code c <? 32)%N || (126 <? code c)%N.
Definition in_path_set (c : ascii) : bool :=
  in_c0_control_set c || (code c =? 32)%N
  || one_of (String (ascii_of_N 34) "#<>?^`{}") c.

Definition forbidden_host (c : ascii) : bool :=
  (code c =? 0)%N || is_tab_or_newline c || (code c =? 32)%N
  || one_of "#/:<>?@[\]^|" c.
Definition forbidden_domain (c : ascii) : bool :=
  forbidden_host c || (code c <? 32)%N || Ascii.eqb c "%" || (code c =? 127)%N.

(** The last label of a domain, a trailing dot set aside. *)
Definition last_label (domain : string) : string :=
  match rev (split_where (Ascii.eqb ".") domain) with
  | EmptyString :: l :: _ => l
  | l :: _ => l
  | [] => EmptyString
  end.

Definition starts_with_digit (s : string) : bool :=
  match s with
  | String c _ => is_digit c
  | EmptyString => false
  end.

Definition has_punycode_label (domain : string) : bool :=
  existsb (String.prefix "xn--") (split_where (Ascii.eqb ".") domain).

(** The host of a special URL: lower-cased and checked. *)
Definition parse_domain (h : string) : Parsed :=
  let d := map_string lower h in
  if negb (all_chars (fun c => negb (Ascii.eqb c "%")) h) || String.prefix "[" h
  then Unsupported
  else if negb (all_chars (fun c => negb (forbidden_domain c)) d) then Failure
  else if starts_with_digit (last_label d) || has_punycode_label d then Unsupported
  else Url {| hostname := d; pathname := "" |}.

(** The host of a URL whose scheme is not special: kept as written. *)
Definition parse_opaque_host (h : string) : Parsed :=
  if String.prefix "[" h then Unsupported
  else if negb (all_chars (fun c => negb (forbidden_host c)) h) then Failure
  else Url {| hostname := percent_encode in_c0_control_set h; pathname := "" |}.

Fixpoint digits_value (s : string) (acc : N) : N :=
  match s with
  | EmptyString => acc
  | String c rest => digits_value rest (acc * 10 + (code c - 48))%N
  end.

Definition port_ok (p : string) : bool :=
  all_chars is_digit p && (digits_value p 0 <=? 65535)%N.

Definition is_single_dot (seg : string) : bool :=
  existsb (String.eqb (map_string lower seg)) ["."; "%2e"].
Definition is_double_dot (seg : string) : bool :=
  existsb (String.eqb (map_string lower seg)) [".."; ".%2e"; "%2e."; "%2e%2e"].

(** The path state, over the segments as the slashes cut them; [path] is
    kept last segment first. *)
Fixpoint path_state (segs : list string) (path : list string) : list string :=
  match segs with
  | [] => path
  | [seg] =>
      if is_double_dot seg then EmptyString :: tl path
      else if is_single_dot seg then EmptyString :: path
      else percent_encode in_path_set seg :: path
  | seg :: rest =>
      if is_double_dot seg then path_state rest (tl path)
      else if is_single_dot seg then path_state rest path
      else path_state rest (percent_encode in_path_set seg :: path)
  end.

Definition ends_path (c : ascii) : bool := one_of "?#" c.

Definition parse_path (special : bool) (text : string) : list string :=
  let slash c := Ascii.eqb c "/" || (special && Ascii.eqb c "\") in
  rev (path_state (split_where slash (fst (break ends_path text))) []).

Definition serialize_path (path : list string) : string :=
  fold_right (fun seg acc => "/" +:+ seg +:+ acc) "" path.

(** The path that follows an authority. *)
Definition path_after (special : bool) (rest : string) : string :=
  match rest with
  | String c text =>
      if Ascii.eqb c "/" || (special && Ascii.eqb c "\") then
        serialize_path (parse_path special text)
      else if special then serialize_path (parse_path special rest)
      else EmptyString
  | EmptyString =>
      if special then serialize_path (parse_path special rest) else EmptyString
  end.

(** The authority state, then host, port and path. *)
Definition parse_authority (special : bool) (text : string) : Parsed :=
  let ends c := one_of "/?#" c || (special && Ascii.eqb c "\") in
  let (auth, rest) := break ends text in
  let (at_seen, hostport) :=
    match split_last_at auth with
    | Some (_, hp) => (true, hp)
    | None => (false, auth)
    end in
  if at_seen && String.eqb hostport "" then Failure
  else
    let (h, p) := break (Ascii.eqb ":") hostport in
    let port := match p with String _ digits => Some digits | EmptyString => None end in
    if (bool_decide (is_Some port) || special) && String.eqb h "" then Failure
    else
      match (if special then parse_domain h else parse_opaque_host h) with
      | Url u =>
          if negb (from_option port_ok true port) then Failure
          else Url {| hostname := hostname u; pathname := path_after special rest |}
      | r => r
      end.

Definition parse (input : string) : Parsed :=
  if negb (all_chars is_ascii input) then Unsupported
  else
    match parse_scheme (strip input) with
    | None => Failure
    | Some (scheme, after) =>
        if String.eqb scheme "file" then Unsupported
        else if is_special scheme then
          parse_authority true (drop_while (one_of "/\") after)
        else
          match after with
          | String "/" (String "/" text) => parse_authority false text
          | String "/" text =>
              Url {| hostname := ""; pathname := serialize_path (parse_path false text) |}
          | _ =>
              Url {| hostname := "";
                     pathname := percent_encode in_c0_control_set
                                   (fst (break ends_path after)) |}
          end
    end.

End WhatwgURL.

(** [new URL(input)] of the reference environment.  An input outside the
    modelled fragment throws here as well; the examples stay inside it. *)
Definition ref_new_URL (input : JsValue) : Exc URL :=
  match WhatwgURL.parse (ToString input) with
  | WhatwgURL.Url u => Ok u
  | WhatwgURL.Failure => Throw (TypeError "Invalid URL")
  | WhatwgURL.Unsupported => Throw (TypeError "Invalid URL")
  end.

(** The upstream of the examples: four repositories, anything else is not
    found; every reply takes 120 ms. *)
Definition ref_octokit_request (now : N) (owner repo : string) : Reply :=
  let key := owner +:+ "/" +:+ repo in
  {| result :=
       if String.eqb key "octocat/Hello-World" then Ok "Hello World!"
       else if String.eqb key "octocat/empty" then Ok ""
       else if String.eqb key "octocat/private" then
         Throw (RequestError 403 "Forbidden")
       else if String.eqb key "octocat/flaky" then
         Throw (RequestError 502 "Bad Gateway")
       else Throw (RequestError 404 "Not Found");
     elapsed := 120 |}.

(** [marked] and [DOMPurify] are not modelled.  The examples need some
    renderer to run: this one wraps the text in a paragraph and hands it on
    as it is.  No theorem about the server depends on that choice. *)
Definition ref_env : Env := {|
  new_URL := ref_new_URL;
  octokit_request := ref_octokit_request;
  marked_parse := fun markdown => inl ("<p>" +:+ markdown +:+ "</p>");
  sanitize := fun html => inl html
|}.

(** The same environment with a [marked] that throws on every input. *)
Definition broken_marked_env : Env := {|
  new_URL := ref_new_URL;
  octokit_request := ref_octokit_request;
  marked_parse := fun _ => inr "marked(): input parameter is of type [object Object]";
  sanitize := fun html => inl html
|}.

(** A fresh process at time [now]. *)
Definition boot (now : N) : World :=
  {| clock := now; cache := ∅; upstream_calls := []; sent := []; console := [] |}.

(** The same process, later. *)
Definition at_time (now : N) (w : World) : World :=
  {| clock := now; cache := cache w; upstream_calls := upstream_calls w;
     sent := sent w; console := console w |}.

(** The body the page sends: [{url}]. *)
Definition post (url : string) : JsValue := JsObject [("url", JsString url)].

(* ===================================================================== *)
(** ** What the specification says, in its own words *)
(* ===================================================================== *)

Definition strip_prefix (p s : string) : option string :=
  if String.prefix p s
  then Some (substring (String.length p) (String.length s - String.length p) s)
  else None.

(** The pattern of section 8, read as written:
    [https://(www.)?github.com/<owner>/<repo>...] with [<owner>] and
    [<repo>] non-empty and free of [/]. *)
Definition matches_pattern (s : string) : bool :=
  match strip_prefix "https://" s with
  | Some rest =>
      match strip_prefix "github.com/" (strip_www rest) with
      | Some path =>
          match split "/" path with
          | o :: r :: _ => truthy o && truthy r
          | _ => false
          end
      | None => false
      end
  | None => false
  end.

(** The taxonomy of section 7 and the responses of section 6. *)
Inductive Outcome : Type :=
| InvalidInput
| NotFound
| RateLimited
| Unexpected
| Success (html : string).

Definition response_for (o : Outcome) : Response :=
  match o with
  | InvalidInput =>
      {| code := 400;
         body := ErrorBody "Invalid URL. Format: https://github.com/:owner/:repo" |}
  | NotFound =>
      {| code := 404; body := ErrorBody "Repository or Readme not found." |}
  | RateLimited =>
      {| code := 429; body := ErrorBody "GitHub API rate limit exceeded." |}
  | Unexpected =>
      {| code := 500; body := ErrorBody "Internal Server Error" |}
  | Success html => {| code := 200; body := HtmlBody html |}
  end.

Section Taxonomy.
Context `{E : Env}.

(** An error of the upstream, by its HTTP status. *)
Definition upstream_failure (e : JsError) : Outcome :=
  match err_status e with
  | Some 404%Z => NotFound
  | Some 403%Z | Some 429%Z => RateLimited
  | _ => Unexpected
  end.

(** The rendering of a README: a failure of either step is unexpected. *)
Definition render (markdown : string) : Outcome :=
  match marked_parse markdown with
  | inr _ => Unexpected
  | inl rawHtml =>
      match sanitize rawHtml with
      | inr _ => Unexpected
      | inl cleanHtml => Success cleanHtml
      end
  end.

(** The outcome of a request with body [req_body] arriving in world [w]. *)
Definition outcome_of (req_body : JsValue) (w : World) : Outcome :=
  match destructure_url req_body with
  | Throw _ => Unexpected
  | Ok url =>
      match parseGitHubUrl url with
      | Ok (Some r) =>
          match fst (fetchRepoReadme (owner r) (repo r) w) with
          | Ok markdown => render markdown
          | Throw e => upstream_failure e
          end
      | _ => InvalidInput
      end
  end.

End Taxonomy.

(* ===================================================================== *)
(** ** The page script *)
(* ===================================================================== *)

(** What the script reads of the [Response] that [fetch] resolves to:
    [res.ok] and [await res.json()]. *)
Record FetchResponse : Type := { ok : bool; json : Exc JsValue }.

(** The browser side has two collaborators of its own: [String.prototype.trim]
    and [fetch("/api/fetch-readme", ...)] with the body [{url}]; [fetch]
    rejects when the request cannot be made. *)
Class Browser : Type := {
  trim : string -> string;
  fetch : string -> Exc FetchResponse
}.

(** The elements of [ui], with the properties the script touches, and the
    requests the page has issued. *)
Record Page : Type := {
  input_value : string;
  submitBtn_disabled : bool;
  contentArea_classList : gset string;
  markdownOutput_innerHTML : string;
  errorMsg_classList : gset string;
  errorMsg_textContent : string;
  requests : list string
}.

(** Truthiness of a value, as [||] tests it. *)
Definition js_truthy (x : JsValue) : bool :=
  match x with
  | JsUndefined | JsNull => false
  | JsBool b => b
  | JsNumber repr => negb (String.eqb repr "0") && negb (String.eqb repr "NaN")
  | JsString s => truthy s
  | JsArray _ | JsObject _ => true
  end.

(** [x.name]: a [TypeError] on [undefined] and [null]. *)
Definition get_prop (name : string) (x : JsValue) : Exc JsValue :=
  match x with
  | JsUndefined | JsNull => Throw (TypeError "Cannot read properties")
  | JsObject fields => Ok (get_field name fields)
  | _ => Ok JsUndefined
  end.

(** The string an [innerHTML] assignment stores: [null] is the empty
    string. *)
Definition to_innerHTML (x : JsValue) : string :=
  match x with
  | JsNull => ""
  | _ => ToString x
  end.

Definition toggleLoading (isLoading : bool) (p : Page) : Page :=
  if isLoading then
    {| input_value := input_value p;
       submitBtn_disabled := true;
       contentArea_classList :=
         (contentArea_classList p ∖ {["hidden"]}) ∪ {["is-loading"]};
       markdownOutput_innerHTML := "";
       errorMsg_classList := errorMsg_classList p ∪ {["hidden"]};
       errorMsg_textContent := errorMsg_textContent p;
       requests := requests p |}
  else
    {| input_value := input_value p;
       submitBtn_disabled := false;
       contentArea_classList := contentArea_classList p ∖ {["is-loading"]};
       markdownOutput_innerHTML := markdownOutput_innerHTML p;
       errorMsg_classList := errorMsg_classList p;
       errorMsg_textContent := errorMsg_textContent p;
       requests := requests p |}.

Definition showError (message : string) (p : Page) : Page :=
  {| input_value := input_value p;
     submitBtn_disabled := submitBtn_disabled p;
     contentArea_classList := contentArea_classList p ∪ {["hidden"]};
     markdownOutput_innerHTML := markdownOutput_innerHTML p;
     errorMsg_classList := errorMsg_classList p ∖ {["hidden"]};
     errorMsg_textContent := message;
     requests := requests p |}.

Definition resetView (p : Page) : Page :=
  {| input_value := "";
     submitBtn_disabled := submitBtn_disabled p;
     contentArea_classList := contentArea_classList p ∪ {["hidden"]};
     markdownOutput_innerHTML := "";
     errorMsg_classList := errorMsg_classList p ∪ {["hidden"]};
     errorMsg_textContent := errorMsg_textContent p;
     requests := requests p |}.

(** [ui.markdownOutput.innerHTML = data.html] *)
Definition render_output (x : JsValue) (p : Page) : Page :=
  {| input_value := input_value p;
     submitBtn_disabled := submitBtn_disabled p;
     contentArea_classList := contentArea_classList p;
     markdownOutput_innerHTML := to_innerHTML x;
     errorMsg_classList := errorMsg_classList p;
     errorMsg_textContent := errorMsg_textContent p;
     requests := requests p |}.

Definition record_request (url : string) (p : Page) : Page :=
  {| input_value := input_value p;
     submitBtn_disabled := submitBtn_disabled p;
     contentArea_classList := contentArea_classList p;
     markdownOutput_innerHTML := markdownOutput_innerHTML p;
     errorMsg_classList := errorMsg_classList p;
     errorMsg_textContent := errorMsg_textContent p;
     requests := requests p ++ [url] |}.

Definition fallback_message : string := "Failed to fetch data".

Section PageScript.
Context `{B : Browser}.

(** The [try] block of the submit listener up to the assignment: the value
    of [data.html], or what was thrown on the way. *)
Definition attempt (url : string) : Exc JsValue :=
  ExcMonad.bind (fetch url) (fun res =>
  ExcMonad.bind (json res) (fun data =>
    if negb (ok res) then
      ExcMonad.bind (get_prop "error" data) (fun error =>
        Throw (PlainError
                 (if js_truthy error then ToString error else fallback_message)))
    else get_prop "html" data)).

(** The [submit] listener of the form, run to completion. *)
Definition submit (p : Page) : Page :=
  let url := trim (input_value p) in
  if negb (truthy url) then p
  else
    let loading := record_request url (toggleLoading true p) in
    let settled :=
      match attempt url with
      | Ok html => render_output html loading
      | Throw err => showError (err_message err) loading
      end in
    toggleLoading false settled.

End PageScript.

(** The page served by this server: [fetch] runs the handler in world [w]
    and hands back what it wrote, as [res.json] serialises it. *)
Definition wire (r : Response) : FetchResponse :=
  {| ok := (200 <=? code r)%Z && (code r <=? 299)%Z;
     json := Ok match body r with
                | ErrorBody m => JsObject [("error", JsString m)]
                | HtmlBody h => JsObject [("html", JsString h)]
                end |}.

Definition served_by `{E : Env} (w : World) (url : string) : Exc FetchResponse :=
  match rev (sent (snd (handler (post url) w))) with
  | r :: _ => Ok (wire r)
  | [] => Throw (TypeError "Failed to fetch")
  end.

Definition browser_of `{E : Env} (trim_fn : string -> string) (w : World) : Browser :=
  {| trim := trim_fn; fetch := served_by w |}.

(** The ASCII part of [trim], for the examples: tab, line feed, vertical
    tab, form feed, carriage return and space go from both ends. *)
Definition is_ascii_space (c : ascii) : bool :=
  let n := N_of_ascii c in ((9 <=? n)%N && (n <=? 13)%N) || (n =? 32)%N.

Definition ref_trim (s : string) : string :=
  String.rev (WhatwgURL.drop_while is_ascii_space
    (String.rev (WhatwgURL.drop_while is_ascii_space s))).

(** The page of the examples, served by a freshly started server. *)
Definition ref_browser : Browser := browser_of (E := ref_env) ref_trim (boot 1000).

(** A page whose server answers 200 with an empty object. *)
Definition odd_browser : Browser :=
  {| trim := ref_trim;
     fetch := fun _ => Ok {| ok := true; json := Ok (JsObject []) |} |}.

(** A page whose server answers 500 with [{"error": 1e21}]. *)
Definition numeric_error_browser : Browser :=
  {| trim := ref_trim;
     fetch := fun _ =>
       Ok {| ok := false; json := Ok (JsObject [("error", JsNumber "1e+21")]) |} |}.

(** The page as it loads: both panels hidden, nothing typed. *)
Definition blank_page : Page :=
  {| input_value := ""; submitBtn_disabled := false;
     contentArea_classList := {["hidden"]}; markdownOutput_innerHTML := "";
     errorMsg_classList := {["hidden"]}; errorMsg_textContent := "";
     requests := [] |}.

Definition typed (text : string) (p : Page) : Page :=
  {| input_value := text; submitBtn_disabled := submitBtn_disabled p;
     contentArea_classList := contentArea_classList p;
     markdownOutput_innerHTML := markdownOutput_innerHTML p;
     errorMsg_classList := errorMsg_classList p;
     errorMsg_textContent := errorMsg_textContent p;
     requests := requests p |}.

(** The message the page shows for an outcome of the server. *)
Definition message_of (o : Outcome) : string :=
  match body (response_for o) with
  | ErrorBody m => m
  | HtmlBody _ => ""
  end.

(* ===================================================================== *)
(** ** The URL parser *)
(* ===================================================================== *)

Lemma truthy_true (s : string) : truthy s = true <-> s <> "".
Proof.
  unfold truthy. destruct (String.eqb_spec s ""); simpl; split; congruence.
Qed.

Lemma segments_truthy (p s : string) : In s (segments p) -> s <> "".
Proof.
  unfold segments. intros Hin. apply filter_In in Hin as [_ Ht].
  now apply truthy_true.
Qed.

(** [split] inverts joining with the separator: nothing of the path is lost
    and no segment holds a separator. *)
Lemma split_not_nil (sep : ascii) (s : string) : split sep s <> [].
Proof.
  destruct s as [|c rest]; simpl; [discriminate|].
  destruct (Ascii.eqb c sep); [discriminate|].
  destruct (split sep rest); discriminate.
Qed.

Lemma split_no_sep (sep : ascii) (s seg : string) :
  In seg (split sep s) -> has_char sep seg = false.
Proof.
  revert seg. induction s as [|c rest IH]; simpl; intros seg Hin.
  - destruct Hin as [<-|[]]. reflexivity.
  - destruct (Ascii.eqb c sep) eqn:Hc.
    + destruct Hin as [<-|Hin]; [reflexivity|auto].
    + destruct (split sep rest) as [|s0 segs] eqn:Hs.
      * destruct Hin as [<-|[]]. simpl. now rewrite Hc.
      * destruct Hin as [<-|Hin].
        -- simpl. rewrite Hc. simpl. apply IH. now left.
        -- apply IH. now right.
Qed.

(** Names without a slash make the cache key [owner/repo] unambiguous. *)
Lemma cache_key_inj (o r o' r' : string) :
  has_char "/" o = false -> has_char "/" o' = false ->
  o +:+ "/" +:+ r = o' +:+ "/" +:+ r' ->
  o = o' /\ r = r'.
Proof.
  revert o'. induction o as [|c t IH]; intros [|c' t']; simpl; intros Ho Ho' Heq.
  - injection Heq as Hr. auto.
  - injection Heq as Hc _. subst c'. simpl in Ho'. discriminate.
  - injection Heq as Hc _. subst c. simpl in Ho. discriminate.
  - injection Heq as Hc Heq. subst c'.
    apply orb_false_iff in Ho as [_ Ho]. apply orb_false_iff in Ho' as [_ Ho'].
    destruct (IH t' Ho Ho' Heq) as [Ht Hr]. subst. auto.
Qed.

Section ParserFacts.
Context `{E : Env}.

(** The parser as one equation: the [try] turns a throwing [new URL] into
    [null], the two guards do the rest. *)
Lemma parseGitHubUrl_eq (x : JsValue) :
  parseGitHubUrl x =
  Ok match new_URL x with
     | Throw _ => None
     | Ok u =>
         if String.eqb (strip_www (hostname u)) "github.com" then
           match segments (pathname u) with
           | o :: r :: _ => Some {| owner := o; repo := r |}
           | _ => None
           end
         else None
     end.
Proof.
  unfold parseGitHubUrl, ExcMonad.try_catch, ExcMonad.bind, ExcMonad.ret.
  destruct (new_URL x) as [u|e]; [|reflexivity].
  destruct (String.eqb (strip_www (hostname u)) "github.com"); simpl; [|reflexivity].
  destruct (segments (pathname u)) as [|o [|r rest]]; reflexivity.
Qed.

Lemma parseGitHubUrl_Some (x : JsValue) (ref : RepoRef) :
  parseGitHubUrl x = Ok (Some ref) ->
  exists u rest,
    new_URL x = Ok u /\ strip_www (hostname u) = "github.com"
    /\ segments (pathname u) = owner ref :: repo ref :: rest.
Proof.
  rewrite parseGitHubUrl_eq. intros H.
  destruct (new_URL x) as [u|e]; [|discriminate].
  destruct (String.eqb_spec (strip_www (hostname u)) "github.com") as [Hh|]; [|discriminate].
  destruct (segments (pathname u)) as [|o [|r rest]] eqn:Hs; try discriminate.
  injection H as <-. exists u, rest. auto.
Qed.

(** Only the three checks make the parser answer [null]. *)
Lemma parseGitHubUrl_None (x : JsValue) :
  parseGitHubUrl x = Ok None ->
  (exists e, new_URL x = Throw e)
  \/ (exists u, new_URL x = Ok u
        /\ (strip_www (hostname u) <> "github.com"
            \/ (List.length (segments (pathname u)) < 2)%nat)).
Proof.
  rewrite parseGitHubUrl_eq. intros H.
  destruct (new_URL x) as [u|e]; [|left; eauto].
  right. exists u. split; [reflexivity|].
  destruct (String.eqb_spec (strip_www (hostname u)) "github.com") as [Hh|Hh]; [|now left].
  right. destruct (segments (pathname u)) as [|o [|r rest]]; simpl; try lia.
  discriminate.
Qed.

(** What the parser returns never holds a slash, so two repositories never
    share a cache slot. *)
Lemma parsed_names_no_slash (x : JsValue) (ref : RepoRef) :
  parseGitHubUrl x = Ok (Some ref) ->
  has_char "/" (owner ref) = false /\ has_char "/" (repo ref) = false.
Proof.
  intros H. apply parseGitHubUrl_Some in H as (u & rest & _ & _ & Hs).
  assert (Hin : forall seg, In seg (segments (pathname u)) -> has_char "/" seg = false).
  { intros seg Hseg. unfold segments in Hseg. apply filter_In in Hseg as [Hseg _].
    now apply split_no_sep in Hseg. }
  split; apply Hin; rewrite Hs; simpl; auto.
Qed.

End ParserFacts.

(* ===================================================================== *)
(** ** The fetcher and the cache *)
(* ===================================================================== *)

Lemma get_set_alive (data : gmap string NodeCache.Entry) (key value : string)
    (t0 t1 : N) :
  (t1 <= t0 + 3600 * 1000)%N ->
  NodeCache.get t1 key (NodeCache.set t0 key value data) = Some value.
Proof.
  intros Ht. unfold NodeCache.get, NodeCache.set. rewrite lookup_insert_eq.
  unfold NodeCache.check, NodeCache.wrap, NodeCache.stdTTL. simpl.
  destruct (N.ltb_spec (t0 + 3600 * 1000) t1) as [Hlt|Hge]; [lia|].
  now rewrite andb_false_r.
Qed.

Lemma get_set_expired (data : gmap string NodeCache.Entry) (key value : string)
    (t0 t1 : N) :
  (t0 + 3600 * 1000 < t1)%N ->
  NodeCache.get t1 key (NodeCache.set t0 key value data) = None.
Proof.
  intros Ht. unfold NodeCache.get, NodeCache.set. rewrite lookup_insert_eq.
  unfold NodeCache.check, NodeCache.wrap, NodeCache.stdTTL. simpl.
  destruct (N.ltb_spec (t0 + 3600 * 1000) t1) as [Hlt|Hge]; [|lia].
  destruct (N.eqb_spec (t0 + 3600 * 1000) 0) as [H0|H0]; [lia|reflexivity].
Qed.

(** A [set] under one key is not seen under another. *)
Lemma get_set_other (data : gmap string NodeCache.Entry) (key key' value : string)
    (t0 t1 : N) :
  key <> key' ->
  NodeCache.get t1 key' (NodeCache.set t0 key value data) = NodeCache.get t1 key' data.
Proof.
  intros Hne. unfold NodeCache.get, NodeCache.set.
  now rewrite lookup_insert_ne.
Qed.

Section FetcherFacts.
Context `{E : Env}.

(** A hit: the cached text comes back, the upstream is not asked, and only
    the console changes. *)
Lemma fetch_hit (o r s : string) (w : World) :
  NodeCache.get (clock w) (o +:+ "/" +:+ r) (cache w) = Some s ->
  truthy s = true ->
  fetchRepoReadme o r w
  = (Ok s, logged ("[Cache Hit] " +:+ o +:+ "/" +:+ r) w).
Proof.
  intros Hget Ht. unfold fetchRepoReadme, bind, cache_get. simpl.
  rewrite Hget, Ht. reflexivity.
Qed.

(** A miss: whatever the upstream replies is the result; the cache gets the
    text when there is one. *)
Lemma fetch_miss (o r : string) (w : World) :
  (forall s, NodeCache.get (clock w) (o +:+ "/" +:+ r) (cache w) = Some s ->
             truthy s = false) ->
  let reply := octokit_request (clock w) o r in
  let w1 := snd (request o r (logged ("[API Fetch] " +:+ o +:+ "/" +:+ r) w)) in
  fetchRepoReadme o r w
  = match result reply with
    | Ok data => (Ok data, snd (cache_set (o +:+ "/" +:+ r) data w1))
    | Throw e => (Throw e, w1)
    end.
Proof.
  intros Hmiss reply w1. subst reply w1.
  unfold fetchRepoReadme, bind, cache_get, request, logged. simpl.
  destruct (NodeCache.get (clock w) (o +:+ "/" +:+ r) (cache w)) as [s|] eqn:Hget;
    [rewrite (Hmiss s eq_refl)|];
    destruct (result (octokit_request (clock w) o r)); reflexivity.
Qed.

(** An error that leaves the fetcher is the one the upstream replied with. *)
Lemma fetch_throws_upstream (o r : string) (w : World) (e : JsError) :
  fst (fetchRepoReadme o r w) = Throw e ->
  result (octokit_request (clock w) o r) = Throw e.
Proof.
  unfold fetchRepoReadme, bind, cache_get, request. simpl.
  destruct (NodeCache.get (clock w) (o +:+ "/" +:+ r) (cache w)) as [s|];
    [destruct (truthy s)|]; simpl;
    try destruct (result (octokit_request (clock w) o r)); simpl; congruence.
Qed.

(** Either way the fetcher writes no response. *)
Lemma fetch_sent (o r : string) (w : World) :
  sent (snd (fetchRepoReadme o r w)) = sent w.
Proof.
  unfold fetchRepoReadme, bind, cache_get, request. simpl.
  destruct (NodeCache.get (clock w) (o +:+ "/" +:+ r) (cache w)) as [s|];
    [destruct (truthy s)|]; simpl;
    try destruct (result (octokit_request (clock w) o r)); reflexivity.
Qed.

(** The fetcher's only write to the cache is a [set] under its own key. *)
Lemma fetch_cache (o r : string) (w : World) :
  let w' := snd (fetchRepoReadme o r w) in
  cache w' = cache w
  \/ exists now data,
       fst (fetchRepoReadme o r w) = Ok data
       /\ cache w' = NodeCache.set now (o +:+ "/" +:+ r) data (cache w).
Proof.
  unfold fetchRepoReadme, bind, cache_get, request. simpl.
  destruct (NodeCache.get (clock w) (o +:+ "/" +:+ r) (cache w)) as [s|];
    [destruct (truthy s)|]; simpl;
    try destruct (result (octokit_request (clock w) o r)); simpl; eauto.
Qed.

(** The world a successful miss leaves behind. *)
Lemma fetch_miss_stored (o r data : string) (w : World) :
  (forall s, NodeCache.get (clock w) (o +:+ "/" +:+ r) (cache w) = Some s ->
             truthy s = false) ->
  result (octokit_request (clock w) o r) = Ok data ->
  let w1 := snd (fetchRepoReadme o r w) in
  clock w1 = (clock w + elapsed (octokit_request (clock w) o r))%N
  /\ cache w1 = NodeCache.set (clock w1) (o +:+ "/" +:+ r) data (cache w)
  /\ upstream_calls w1 = upstream_calls w ++ [(o, r)].
Proof.
  intros Hmiss Hok. simpl. rewrite (fetch_miss o r w Hmiss), Hok. simpl. auto.
Qed.

(** X11: two fetches of one repository.  The first misses and stores a text
    that is not empty.  A second one up to 3600 s after the store is served
    from the cache, without a call to the upstream. *)
Lemma second_fetch_within_ttl (o r data : string) (w : World) (t1 : N) :
  (forall s, NodeCache.get (clock w) (o +:+ "/" +:+ r) (cache w) = Some s ->
             truthy s = false) ->
  result (octokit_request (clock w) o r) = Ok data ->
  data <> "" ->
  let w1 := snd (fetchRepoReadme o r w) in
  (t1 <= clock w1 + 3600 * 1000)%N ->
  fst (fetchRepoReadme o r (at_time t1 w1)) = Ok data
  /\ upstream_calls (snd (fetchRepoReadme o r (at_time t1 w1))) = upstream_calls w1.
Proof.
  intros Hmiss Hok Hdata w1 Ht.
  destruct (fetch_miss_stored o r data w Hmiss Hok) as (_ & Hc & _). fold w1 in Hc.
  assert (Hget : NodeCache.get (clock (at_time t1 w1)) (o +:+ "/" +:+ r)
                   (cache (at_time t1 w1)) = Some data).
  { simpl. rewrite Hc. now apply get_set_alive. }
  apply truthy_true in Hdata.
  rewrite (fetch_hit o r data _ Hget Hdata). auto.
Qed.

(** X12: later than 3600 s after the store, the entry is dead and the second
    fetch asks the upstream again. *)
Lemma second_fetch_after_ttl (o r data : string) (w : World) (t1 : N) :
  (forall s, NodeCache.get (clock w) (o +:+ "/" +:+ r) (cache w) = Some s ->
             truthy s = false) ->
  result (octokit_request (clock w) o r) = Ok data ->
  let w1 := snd (fetchRepoReadme o r w) in
  (clock w1 + 3600 * 1000 < t1)%N ->
  fst (fetchRepoReadme o r (at_time t1 w1)) = result (octokit_request t1 o r)
  /\ upstream_calls (snd (fetchRepoReadme o r (at_time t1 w1)))
     = upstream_calls w1 ++ [(o, r)].
Proof.
  intros Hmiss Hok w1 Ht.
  destruct (fetch_miss_stored o r data w Hmiss Hok) as (_ & Hc & _). fold w1 in Hc.
  assert (Hmiss1 : forall s,
            NodeCache.get (clock (at_time t1 w1)) (o +:+ "/" +:+ r)
              (cache (at_time t1 w1)) = Some s -> truthy s = false).
  { simpl. rewrite Hc. intros s Hs.
    rewrite get_set_expired in Hs by exact Ht. discriminate. }
  rewrite (fetch_miss o r _ Hmiss1). simpl.
  destruct (result (octokit_request t1 o r)); auto.
Qed.

End FetcherFacts.

(* ===================================================================== *)
(** ** The endpoint *)
(* ===================================================================== *)

Lemma upstream_failure_eq (e : JsError) :
  upstream_failure e
  = if status_is e 404 then NotFound
    else if status_is e 403 || status_is e 429 then RateLimited
    else Unexpected.
Proof.
  unfold upstream_failure, status_is.
  destruct (err_status e) as [st|]; [|reflexivity].
  destruct st as [|p|p]; try reflexivity;
    repeat (destruct p as [p|p|]; try reflexivity).
Qed.

Section EndpointFacts.
Context `{E : Env}.

(** The catch block of the handler, on its own. *)
Lemma catch_block_sent (e : JsError) (w : World) :
  let k := if status_is e 404 then respond 404 (ErrorBody not_found_message)
           else if status_is e 403 || status_is e 429
                then respond 429 (ErrorBody rate_limit_message)
                else next e in
  fst (k w) = Ok tt
  /\ sent (snd (k w)) = sent w ++ [response_for (upstream_failure e)]
  /\ cache (snd (k w)) = cache w.
Proof.
  rewrite upstream_failure_eq.
  destruct (status_is e 404); [|destruct (status_is e 403 || status_is e 429)];
    simpl; auto.
Qed.

(** Every run of the handler returns, having written one response: the one
    the taxonomy gives to the outcome of the request. *)
Lemma handler_run (req_body : JsValue) (w : World) :
  fst (handler req_body w) = Ok tt
  /\ sent (snd (handler req_body w))
     = sent w ++ [response_for (outcome_of req_body w)].
Proof.
  unfold handler, outcome_of, try_catch, bind, lift.
  destruct (destructure_url req_body) as [url|e0] eqn:Hd; simpl.
  2:{ destruct req_body; try discriminate; injection Hd as <-; split; reflexivity. }
  destruct (parseGitHubUrl url) as [[ref|]|e1] eqn:Hp; simpl.
  - pose proof (fetch_sent (owner ref) (repo ref) w) as Hs.
    destruct (fetchRepoReadme (owner ref) (repo ref) w) as [[md|e] w1]; simpl in *.
    + unfold render.
      destruct (marked_parse md) as [raw|m]; simpl.
      * destruct (sanitize raw) as [clean|m]; simpl; rewrite Hs; auto.
      * rewrite Hs; auto.
    + destruct (catch_block_sent e w1) as (H1 & H2 & _).
      rewrite <- Hs. auto.
  - auto.
  - rewrite parseGitHubUrl_eq in Hp. discriminate.
Qed.

(** The handler touches the cache through the fetcher and nowhere else. *)
Lemma handler_cache (req_body : JsValue) (w : World) :
  cache (snd (handler req_body w)) = cache w
  \/ exists ref,
       cache (snd (handler req_body w))
       = cache (snd (fetchRepoReadme (owner ref) (repo ref) w)).
Proof.
  unfold handler, try_catch, bind, lift.
  destruct (destructure_url req_body) as [url|e0]; simpl.
  2:{ left. destruct (catch_block_sent e0 w) as (_ & _ & Hc). exact Hc. }
  destruct (parseGitHubUrl url) as [[ref|]|e1]; simpl.
  - right. exists ref.
    destruct (fetchRepoReadme (owner ref) (repo ref) w) as [[md|e] w1]; simpl.
    + destruct (marked_parse md) as [raw|m]; simpl;
        [destruct (sanitize raw) as [clean|m]; simpl|]; reflexivity.
    + destruct (catch_block_sent e w1) as (_ & _ & Hc). exact Hc.
  - left. reflexivity.
  - left. destruct (catch_block_sent e1 w) as (_ & _ & Hc). exact Hc.
Qed.

End EndpointFacts.

(* ===================================================================== *)
(** ** The claims about the URL parser *)
(* ===================================================================== *)

(** C3, as the specification words it, fails: the parser never looks at the
    scheme, so an [http:] URL of a repository does not match the pattern
    [https://(www.)?github.com/<owner>/<repo>...] and is accepted all the
    same. *)
Lemma http_url_is_accepted :
  matches_pattern "http://github.com/octocat/Hello-World" = false
  /\ parseGitHubUrl (E := ref_env) (JsString "http://github.com/octocat/Hello-World")
     = Ok (Some {| owner := "octocat"; repo := "Hello-World" |})
  /\ parseGitHubUrl (E := ref_env) (JsString "http://github.com/octocat/Hello-World")
     <> Ok None.
Proof.
  split; [vm_compute; reflexivity|].
  split; [vm_compute; reflexivity|].
  vm_compute. discriminate.
Qed.

(** C3, amended: whenever [new URL] throws on the input (it is not an
    absolute URL), or the hostname of the parsed URL, a leading [www.]
    removed, is not [github.com], or its path has fewer than two non-empty
    segments, the parser returns [null].  The scheme plays no part. *)
Theorem parse_rejects `{E : Env} (x : JsValue) :
  (exists e, new_URL x = Throw e)
  \/ (exists u, new_URL x = Ok u
        /\ (strip_www (hostname u) <> "github.com"
            \/ (List.length (segments (pathname u)) < 2)%nat)) ->
  parseGitHubUrl x = Ok None.
Proof.
  intros H. rewrite parseGitHubUrl_eq. f_equal.
  destruct H as [[e ->]|(u & -> & H)]; [reflexivity|].
  destruct (String.eqb_spec (strip_www (hostname u)) "github.com") as [Hh|Hh];
    [|reflexivity].
  destruct H as [H|H]; [contradiction|].
  destruct (segments (pathname u)) as [|o [|r rest]]; simpl in H; try reflexivity.
  lia.
Qed.

Lemma parse_rejects_witness :
  parseGitHubUrl (E := ref_env) (JsString "https://gitlab.com/octocat/Hello-World")
  = Ok None.
Proof.
  apply (parse_rejects (E := ref_env)).
  right. exists {| hostname := "gitlab.com"; pathname := "/octocat/Hello-World" |}.
  split; [reflexivity|]. left. simpl. discriminate.
Defined.

(** C4: when the input parses to a URL on [github.com] (a leading [www.]
    aside) whose path has at least two non-empty segments, the parser
    returns the first two as owner and repo and ignores the others; and
    [https://github.com/octocat/Hello-World] gives
    [{owner: "octocat", repo: "Hello-World"}]. *)
Theorem parse_accepts :
  (forall (E : Env) (x : JsValue) (u : URL) (o r : string) (rest : list string),
      new_URL x = Ok u ->
      strip_www (hostname u) = "github.com" ->
      segments (pathname u) = o :: r :: rest ->
      parseGitHubUrl x = Ok (Some {| owner := o; repo := r |}))
  /\ parseGitHubUrl (E := ref_env) (JsString "https://github.com/octocat/Hello-World")
     = Ok (Some {| owner := "octocat"; repo := "Hello-World" |}).
Proof.
  split.
  - intros E x u o r rest Hu Hh Hs.
    rewrite parseGitHubUrl_eq, Hu, Hh, Hs. reflexivity.
  - vm_compute. reflexivity.
Qed.

Lemma parse_accepts_witness :
  parseGitHubUrl (E := ref_env)
    (JsString "https://WWW.GitHub.com/octocat/Hello-World/tree/main?tab=readme#top")
  = Ok (Some {| owner := "octocat"; repo := "Hello-World" |}).
Proof.
  apply (proj1 parse_accepts ref_env _
           {| hostname := "www.github.com";
              pathname := "/octocat/Hello-World/tree/main" |}
           "octocat" "Hello-World" ["tree"; "main"]); reflexivity.
Defined.

(** C9: a [RepoRef] that the parser returns has a non-empty owner and a
    non-empty repo, and they are the first two non-empty segments of the
    path of the parsed URL. *)
Theorem repo_ref_nonempty `{E : Env} (x : JsValue) (ref : RepoRef) :
  parseGitHubUrl x = Ok (Some ref) ->
  owner ref <> "" /\ repo ref <> ""
  /\ exists u rest,
       new_URL x = Ok u
       /\ segments (pathname u) = owner ref :: repo ref :: rest
       /\ (2 <= List.length (segments (pathname u)))%nat.
Proof.
  intros H. apply parseGitHubUrl_Some in H as (u & rest & Hu & _ & Hs).
  assert (Ho : In (owner ref) (segments (pathname u))) by (rewrite Hs; simpl; auto).
  assert (Hr : In (repo ref) (segments (pathname u))) by (rewrite Hs; simpl; auto).
  split; [eapply segments_truthy; eassumption|].
  split; [eapply segments_truthy; eassumption|].
  exists u, rest. rewrite Hs. simpl. repeat split; auto; lia.
Qed.

Lemma repo_ref_nonempty_witness :
  "octocat" <> "" /\ "Hello-World" <> ""
  /\ exists u rest,
       ref_new_URL (JsString "https://github.com/octocat/Hello-World/") = Ok u
       /\ segments (pathname u) = "octocat" :: "Hello-World" :: rest
       /\ (2 <= List.length (segments (pathname u)))%nat.
Proof.
  apply (repo_ref_nonempty (E := ref_env)
           (JsString "https://github.com/octocat/Hello-World/")
           {| owner := "octocat"; repo := "Hello-World" |}).
  vm_compute. reflexivity.
Defined.

(* ===================================================================== *)
(** ** The claims about the endpoint *)
(* ===================================================================== *)

(** C2: every request gets exactly one response, and it is the one of the
    taxonomy: 400 with the format message for an invalid URL; for a valid
    one, 404 when the upstream fails with status 404, 429 when it fails with
    403 or 429, 500 with the fixed message [Internal Server Error] for any
    other failure (another upstream error, a failure of either rendering
    step, a body that cannot be destructured), and 200 with the sanitized
    HTML on success. *)
Theorem endpoint_response_mapping `{E : Env} (req_body : JsValue) (w : World) :
  exists resp,
    fst (handler req_body w) = Ok tt
    /\ sent (snd (handler req_body w)) = sent w ++ [resp]
    /\ resp = response_for (outcome_of req_body w)
    /\ (forall url,
          destructure_url req_body = Ok url ->
          parseGitHubUrl url = Ok None ->
          resp = response_for InvalidInput)
    /\ (forall url ref,
          destructure_url req_body = Ok url ->
          parseGitHubUrl url = Ok (Some ref) ->
          match fst (fetchRepoReadme (owner ref) (repo ref) w) with
          | Throw e =>
              result (octokit_request (clock w) (owner ref) (repo ref)) = Throw e
              /\ (err_status e = Some 404%Z -> resp = response_for NotFound)
              /\ (err_status e = Some 403%Z \/ err_status e = Some 429%Z ->
                  resp = response_for RateLimited)
              /\ (err_status e <> Some 404%Z -> err_status e <> Some 403%Z ->
                  err_status e <> Some 429%Z -> resp = response_for Unexpected)
          | Ok markdown =>
              match marked_parse markdown with
              | inr _ => resp = response_for Unexpected
              | inl rawHtml =>
                  match sanitize rawHtml with
                  | inr _ => resp = response_for Unexpected
                  | inl cleanHtml => resp = response_for (Success cleanHtml)
                  end
              end
          end)
    /\ (forall e, destructure_url req_body = Throw e ->
                  resp = response_for Unexpected).
Proof.
  exists (response_for (outcome_of req_body w)).
  destruct (handler_run req_body w) as [Hret Hsent].
  repeat split; try assumption.
  - intros url Hd Hp. unfold outcome_of. now rewrite Hd, Hp.
  - intros url ref Hd Hp. unfold outcome_of. rewrite Hd, Hp.
    destruct (fst (fetchRepoReadme (owner ref) (repo ref) w)) as [md|e] eqn:Hf.
    + unfold render. destruct (marked_parse md) as [raw|m]; [|reflexivity].
      destruct (sanitize raw); reflexivity.
    + split; [now apply fetch_throws_upstream|].
      rewrite upstream_failure_eq. unfold status_is.
      destruct (err_status e) as [st|].
      * repeat split.
        -- intros [= ->]. reflexivity.
        -- intros [[= ->]|[= ->]]; reflexivity.
        -- intros H404 H403 H429.
           destruct (Z.eqb_spec st 404); [congruence|].
           destruct (Z.eqb_spec st 403); [congruence|].
           destruct (Z.eqb_spec st 429); [congruence|]. reflexivity.
      * repeat split; try discriminate. intros [H|H]; discriminate.
  - intros e Hd. unfold outcome_of. now rewrite Hd.
Qed.

Lemma endpoint_response_mapping_witness :
  sent (snd (handler (E := ref_env) (post "https://github.com/octocat/private")
               (boot 1000)))
  = [response_for RateLimited].
Proof.
  destruct (endpoint_response_mapping (E := ref_env)
              (post "https://github.com/octocat/private") (boot 1000))
    as (resp & _ & Hsent & _ & _ & Hvalid & _).
  rewrite Hsent.
  specialize (Hvalid (JsString "https://github.com/octocat/private")
                {| owner := "octocat"; repo := "private" |} eq_refl eq_refl).
  destruct Hvalid as (_ & _ & Hrate & _).
  rewrite (Hrate (or_introl eq_refl)). reflexivity.
Defined.




(* ===================================================================== *)
(** ** The claims about the cache and the fetcher *)
(* ===================================================================== *)

(** C5 fails on an empty README.  The first fetch stores the empty text;
    a minute later the entry is in the cache and alive, and the second
    fetch asks the upstream again: [if (cachedData)] takes the empty string
    for a miss. *)
Lemma empty_readme_is_fetched_again :
  let w1 := snd (fetchRepoReadme (E := ref_env) "octocat" "empty" (boot 1000)) in
  let later := at_time (clock w1 + 60 * 1000) w1 in
  upstream_calls w1 = [("octocat", "empty")]
  /\ NodeCache.get (clock later) "octocat/empty" (cache later) = Some ""
  /\ fst (fetchRepoReadme (E := ref_env) "octocat" "empty" later) = Ok ""
  /\ upstream_calls (snd (fetchRepoReadme (E := ref_env) "octocat" "empty" later))
     = [("octocat", "empty"); ("octocat", "empty")].
Proof. vm_compute. repeat split; reflexivity. Qed.

(** What holds in its place: a cached text that is not empty comes back
    without a call to the upstream and without a write to the cache. *)
Lemma fetch_hit_no_upstream_call `{E : Env} (o r s : string) (w : World) :
  NodeCache.get (clock w) (o +:+ "/" +:+ r) (cache w) = Some s ->
  s <> "" ->
  fst (fetchRepoReadme o r w) = Ok s
  /\ upstream_calls (snd (fetchRepoReadme o r w)) = upstream_calls w
  /\ cache (snd (fetchRepoReadme o r w)) = cache w.
Proof.
  intros Hget Hs. apply truthy_true in Hs.
  rewrite (fetch_hit o r s w Hget Hs). auto.
Qed.

(** What a fetch does to the cache: nothing, or, after a miss that the
    upstream answered, one [set] under its own key at the time the reply
    came. *)
Lemma fetch_cache_change `{E : Env} (o r : string) (w : World) :
  let w' := snd (fetchRepoReadme o r w) in
  cache w' = cache w
  \/ ((forall s, NodeCache.get (clock w) (o +:+ "/" +:+ r) (cache w) = Some s ->
                 truthy s = false)
      /\ exists data,
           fst (fetchRepoReadme o r w) = Ok data
           /\ cache w' = NodeCache.set (clock w') (o +:+ "/" +:+ r) data (cache w)).
Proof.
  unfold fetchRepoReadme, bind, cache_get, request. simpl.
  destruct (NodeCache.get (clock w) (o +:+ "/" +:+ r) (cache w)) as [s|] eqn:Hget;
    [destruct (truthy s) eqn:Ht|]; simpl.
  - left. reflexivity.
  - destruct (result (octokit_request (clock w) o r)) as [data|e]; simpl.
    + right. split; [intros s' [= <-]; exact Ht|]. exists data. auto.
    + left. reflexivity.
  - destruct (result (octokit_request (clock w) o r)) as [data|e]; simpl.
    + right. split; [discriminate|]. exists data. auto.
    + left. reflexivity.
Qed.

(** The same for a whole request: the handler adds nothing of its own. *)
Lemma handler_cache_change `{E : Env} (req_body : JsValue) (w : World) :
  let w' := snd (handler req_body w) in
  cache w' = cache w
  \/ exists url ref data,
       destructure_url req_body = Ok url
       /\ parseGitHubUrl url = Ok (Some ref)
       /\ (forall s, NodeCache.get (clock w) (owner ref +:+ "/" +:+ repo ref) (cache w)
                     = Some s -> truthy s = false)
       /\ cache w'
          = NodeCache.set (clock w') (owner ref +:+ "/" +:+ repo ref) data (cache w).
Proof.
  unfold handler, try_catch, bind, lift.
  destruct (destructure_url req_body) as [url|e0] eqn:Hd; simpl.
  2:{ left. destruct (catch_block_sent e0 w) as (_ & _ & Hc). exact Hc. }
  destruct (parseGitHubUrl url) as [[ref|]|e1] eqn:Hp; simpl.
  - pose proof (fetch_cache_change (owner ref) (repo ref) w) as Hf. simpl in Hf.
    destruct (fetchRepoReadme (owner ref) (repo ref) w) as [[md|e] w1]; simpl in *.
    + destruct (marked_parse md) as [raw|m]; simpl;
        [destruct (sanitize raw) as [clean|m]; simpl|];
        (destruct Hf as [Hf|(Hmiss & data & _ & Hset)];
         [left; exact Hf|right; exists url, ref, data; auto]).
    + left. destruct (catch_block_sent e w1) as (_ & _ & Hc). rewrite Hc.
      destruct Hf as [Hf|(_ & data & Hok & _)]; [exact Hf|discriminate].
  - left. reflexivity.
  - left. destruct (catch_block_sent e1 w) as (_ & _ & Hc). exact Hc.
Qed.

(** C6: an entry set at [t0] is returned by a [get] at any time up to
    [t0] + 3600 s and by none after it.  Nothing but the passing of time
    takes an entry away: a request changes the cache by at most one [set],
    under the key of the repository it fetched; and an entry that is alive
    and not empty when a request arrives answers every [get], at any time,
    as if the request had not been. *)
Theorem cache_entry_ttl :
  (forall (data : gmap string NodeCache.Entry) (key value : string) (t0 t1 : N),
      (t1 <= t0 + 3600 * 1000)%N ->
      NodeCache.get t1 key (NodeCache.set t0 key value data) = Some value)
  /\ (forall (data : gmap string NodeCache.Entry) (key value : string) (t0 t1 : N),
        (t0 + 3600 * 1000 < t1)%N ->
        NodeCache.get t1 key (NodeCache.set t0 key value data) = None)
  /\ (forall (E : Env) (req_body : JsValue) (w : World),
        cache (snd (handler req_body w)) = cache w
        \/ exists url ref data,
             destructure_url req_body = Ok url
             /\ parseGitHubUrl url = Ok (Some ref)
             /\ cache (snd (handler req_body w))
                = NodeCache.set (clock (snd (handler req_body w)))
                    (owner ref +:+ "/" +:+ repo ref) data (cache w))
  /\ (forall (E : Env) (req_body : JsValue) (w : World) (key value : string) (t : N),
        NodeCache.get (clock w) key (cache w) = Some value ->
        value <> "" ->
        NodeCache.get t key (cache (snd (handler req_body w)))
        = NodeCache.get t key (cache w)).
Proof.
  split; [|split; [|split]].
  - apply get_set_alive.
  - apply get_set_expired.
  - intros E req_body w.
    destruct (handler_cache_change req_body w)
      as [Hc|(url & ref & data & Hd & Hp & _ & Hc)]; [left; exact Hc|].
    right. exists url, ref, data. auto.
  - intros E req_body w key value t Hlive Hvalue.
    destruct (handler_cache_change req_body w)
      as [Hc|(url & ref & data & _ & _ & Hmiss & Hc)]; simpl in Hc; rewrite Hc;
      [reflexivity|].
    apply get_set_other. intros <-.
    apply truthy_true in Hvalue. rewrite (Hmiss value Hlive) in Hvalue. discriminate.
Qed.

Lemma cache_entry_ttl_witness :
  NodeCache.get 3601000 "octocat/Hello-World"
    (NodeCache.set 1000 "octocat/Hello-World" "Hello World!" ∅)
  = Some "Hello World!"
  /\ NodeCache.get 3601001 "octocat/Hello-World"
       (NodeCache.set 1000 "octocat/Hello-World" "Hello World!" ∅)
     = None.
Proof.
  split.
  - apply (proj1 cache_entry_ttl). lia.
  - apply (proj1 (proj2 cache_entry_ttl)). lia.
Defined.

(** Another repository is fetched a quarter of an hour after the first: the
    first one's entry answers as before, up to its own deadline. *)
Example request_keeps_live_entry :
  let w1 := snd (handler (E := ref_env) (post "https://github.com/octocat/Hello-World")
                   (boot 1000)) in
  let w2 := snd (handler (E := ref_env) (post "https://github.com/octocat/empty")
                   (at_time 900000 w1)) in
  NodeCache.get 3601120 "octocat/Hello-World" (cache w2) = Some "Hello World!"
  /\ NodeCache.get 3601121 "octocat/Hello-World" (cache w2) = None.
Proof. vm_compute. split; reflexivity. Qed.

(** C7: on a miss the fetcher asks the upstream once.  If the upstream
    answers, the text is the result and is stored under [owner/repo]; if it
    fails, the fetcher throws that very error, status included, and the
    cache is as it was. *)
Theorem fetch_miss_cache_effect `{E : Env} (o r : string) (w : World) :
  (forall s, NodeCache.get (clock w) (o +:+ "/" +:+ r) (cache w) = Some s ->
             truthy s = false) ->
  let reply := octokit_request (clock w) o r in
  let w' := snd (fetchRepoReadme o r w) in
  fst (fetchRepoReadme o r w) = result reply
  /\ upstream_calls w' = upstream_calls w ++ [(o, r)]
  /\ match result reply with
     | Ok data =>
         cache w'
         = <[o +:+ "/" +:+ r := NodeCache.wrap (clock w + elapsed reply) data]> (cache w)
     | Throw e => cache w' = cache w
     end.
Proof.
  intros Hmiss reply w'. subst w'.
  rewrite (fetch_miss o r w Hmiss). fold reply.
  destruct (result reply) as [data|e]; simpl; auto.
Qed.

Lemma fetch_miss_cache_effect_witness :
  fst (fetchRepoReadme (E := ref_env) "octocat" "flaky" (boot 1000))
  = Throw (RequestError 502 "Bad Gateway")
  /\ upstream_calls (snd (fetchRepoReadme (E := ref_env) "octocat" "flaky" (boot 1000)))
     = [("octocat", "flaky")]
  /\ cache (snd (fetchRepoReadme (E := ref_env) "octocat" "flaky" (boot 1000))) = ∅.
Proof.
  apply (fetch_miss_cache_effect (E := ref_env) "octocat" "flaky" (boot 1000)).
  intros s Hs. vm_compute in Hs. discriminate Hs.
Defined.

(* ===================================================================== *)
(** ** Requests, worked through *)
(* ===================================================================== *)

Example post_hello_world :
  sent (snd (handler (E := ref_env) (post "https://github.com/octocat/Hello-World")
               (boot 1000)))
  = [{| code := 200; body := HtmlBody "<p>Hello World!</p>" |}].
Proof. vm_compute. reflexivity. Qed.

Example post_not_a_url :
  sent (snd (handler (E := ref_env) (post "not-a-url") (boot 1000)))
  = [{| code := 400; body := ErrorBody invalid_url_message |}].
Proof. vm_compute. reflexivity. Qed.

Example post_owner_only :
  sent (snd (handler (E := ref_env) (post "https://github.com/octocat") (boot 1000)))
  = [{| code := 400; body := ErrorBody invalid_url_message |}].
Proof. vm_compute. reflexivity. Qed.

Example post_repo_without_readme :
  sent (snd (handler (E := ref_env) (post "https://github.com/octocat/no-readme")
               (boot 1000)))
  = [{| code := 404; body := ErrorBody not_found_message |}].
Proof. vm_compute. reflexivity. Qed.

Example post_forbidden :
  sent (snd (handler (E := ref_env) (post "https://github.com/octocat/private")
               (boot 1000)))
  = [{| code := 429; body := ErrorBody rate_limit_message |}].
Proof. vm_compute. reflexivity. Qed.

Example post_bad_gateway :
  let w := snd (handler (E := ref_env) (post "https://github.com/octocat/flaky")
                  (boot 1000)) in
  sent w = [{| code := 500; body := ErrorBody internal_error_message |}]
  /\ console w = ["[API Fetch] octocat/flaky"; "Unhandled Error: Bad Gateway"].
Proof. vm_compute. split; reflexivity. Qed.

(** The second request within the hour is a cache hit. *)
Example post_twice :
  let w1 := snd (handler (E := ref_env) (post "https://github.com/octocat/Hello-World")
                   (boot 1000)) in
  let w2 := snd (handler (E := ref_env) (post "https://www.github.com/octocat/Hello-World")
                   (at_time 900000 w1)) in
  upstream_calls w2 = [("octocat", "Hello-World")]
  /\ console w2 = ["[API Fetch] octocat/Hello-World"; "[Cache Hit] octocat/Hello-World"]
  /\ List.length (sent w2) = 2%nat.
Proof. vm_compute. repeat split; reflexivity. Qed.

(* ===================================================================== *)
(** ** Further properties of the parser *)
(* ===================================================================== *)

Lemma strip_www_cases (h : string) :
  strip_www h = h \/ h = "www." +:+ strip_www h.
Proof.
  destruct h as [|a h]; [left; reflexivity|].
  destruct a as [[] [] [] [] [] [] [] []]; try (left; reflexivity).
  destruct h as [|b h]; [left; reflexivity|].
  destruct b as [[] [] [] [] [] [] [] []]; try (left; reflexivity).
  destruct h as [|c h]; [left; reflexivity|].
  destruct c as [[] [] [] [] [] [] [] []]; try (left; reflexivity).
  destruct h as [|d h]; [left; reflexivity|].
  destruct d as [[] [] [] [] [] [] [] []]; try (left; reflexivity).
  right. reflexivity.
Qed.

Lemma strip_www_github (h : string) :
  strip_www h = "github.com" <-> h = "github.com" \/ h = "www.github.com".
Proof.
  split.
  - intros H. destruct (strip_www_cases h) as [Hs|Hs].
    + left. congruence.
    + right. rewrite Hs, H. reflexivity.
  - intros [->| ->]; reflexivity.
Qed.

Lemma split_no_occurrence (sep : ascii) (a : string) :
  has_char sep a = false -> split sep a = [a].
Proof.
  induction a as [|c t IH]; simpl; intros H; [reflexivity|].
  apply orb_false_iff in H as [Hc Ht].
  rewrite Hc, (IH Ht). reflexivity.
Qed.

Lemma split_app (sep : ascii) (a b : string) :
  has_char sep a = false ->
  split sep (a +:+ String sep b) = a :: split sep b.
Proof.
  induction a as [|c t IH]; simpl; intros H.
  - now rewrite Ascii.eqb_refl.
  - apply orb_false_iff in H as [Hc Ht].
    rewrite Hc, (IH Ht). reflexivity.
Qed.

(** X1: the parser returns [{owner, repo}] exactly when [new URL] accepts the
    input, the hostname is [github.com] or [www.github.com], and [owner]
    and [repo] are the first two non-empty segments of the path.  No other
    hostname passes: not a second [www.], not a subdomain, not a suffix. *)
Theorem parse_some_iff `{E : Env} (x : JsValue) (o r : string) :
  parseGitHubUrl x = Ok (Some {| owner := o; repo := r |})
  <-> exists u rest,
        new_URL x = Ok u
        /\ (hostname u = "github.com" \/ hostname u = "www.github.com")
        /\ segments (pathname u) = o :: r :: rest.
Proof.
  split.
  - intros H. apply parseGitHubUrl_Some in H as (u & rest & Hu & Hh & Hs).
    exists u, rest. apply strip_www_github in Hh. auto.
  - intros (u & rest & Hu & Hh & Hs). apply strip_www_github in Hh.
    rewrite parseGitHubUrl_eq, Hu, Hh, Hs. reflexivity.
Qed.

(** X2: a path of the form [/owner/repo], with or without anything after a
    further slash (a trailing slash, [/tree/main], ...), gives that owner
    and that repo, whenever the two names are non-empty and hold no
    slash. *)
Theorem parse_repo_path `{E : Env} (x : JsValue) (u : URL) (o r tail : string) :
  new_URL x = Ok u ->
  strip_www (hostname u) = "github.com" ->
  o <> "" -> r <> "" ->
  has_char "/" o = false -> has_char "/" r = false ->
  pathname u = "/" +:+ o +:+ "/" +:+ r
  \/ pathname u = "/" +:+ o +:+ "/" +:+ r +:+ "/" +:+ tail ->
  parseGitHubUrl x = Ok (Some {| owner := o; repo := r |}).
Proof.
  intros Hu Hh Ho Hr Hso Hsr Hp.
  apply truthy_true in Ho. apply truthy_true in Hr.
  rewrite parseGitHubUrl_eq, Hu, Hh. simpl.
  assert (Hs : exists rest, segments (pathname u) = o :: r :: rest).
  { unfold segments. destruct Hp as [-> | ->].
    - change ("/" +:+ o +:+ "/" +:+ r) with ("" +:+ String "/" (o +:+ String "/" r)).
      rewrite (split_app "/" "" _ eq_refl), (split_app "/" o r Hso),
        (split_no_occurrence "/" r Hsr).
      simpl. rewrite Ho, Hr. eauto.
    - change ("/" +:+ o +:+ "/" +:+ r +:+ "/" +:+ tail)
        with ("" +:+ String "/" (o +:+ String "/" (r +:+ String "/" tail))).
      rewrite (split_app "/" "" _ eq_refl), (split_app "/" o _ Hso),
        (split_app "/" r tail Hsr).
      simpl. rewrite Ho, Hr. eauto. }
  destruct Hs as [rest ->]. reflexivity.
Qed.

Lemma parse_repo_path_witness :
  parseGitHubUrl (E := ref_env)
    (JsString "https://github.com/octocat/Hello-World/blob/main/README.md")
  = Ok (Some {| owner := "octocat"; repo := "Hello-World" |}).
Proof.
  apply (parse_repo_path (E := ref_env) _
           {| hostname := "github.com";
              pathname := "/octocat/Hello-World/blob/main/README.md" |}
           "octocat" "Hello-World" "blob/main/README.md");
    try reflexivity; try discriminate.
  right. reflexivity.
Defined.

(** X3: two parsed references that share a cache key are the same
    reference: owner and repo hold no slash, so [owner/repo] splits in one
    way only and repositories never meet in one cache entry. *)
Theorem parsed_refs_share_no_key `{E : Env} (x y : JsValue) (a b : RepoRef) :
  parseGitHubUrl x = Ok (Some a) ->
  parseGitHubUrl y = Ok (Some b) ->
  owner a +:+ "/" +:+ repo a = owner b +:+ "/" +:+ repo b ->
  a = b.
Proof.
  intros Ha Hb Hk.
  apply parsed_names_no_slash in Ha as [Ha _].
  apply parsed_names_no_slash in Hb as [Hb _].
  destruct (cache_key_inj _ _ _ _ Ha Hb Hk) as [Ho Hr].
  destruct a, b; simpl in *; congruence.
Qed.

Lemma parsed_refs_share_no_key_witness :
  {| owner := "octocat"; repo := "Hello-World" |}
  = {| owner := "octocat"; repo := "Hello-World" |}.
Proof.
  apply (parsed_refs_share_no_key (E := ref_env)
           (JsString "https://github.com/octocat/Hello-World")
           (JsString "http://www.github.com/octocat/Hello-World/issues"));
    reflexivity.
Defined.

(* ===================================================================== *)
(** ** Further properties of the fetcher and the endpoint *)
(* ===================================================================== *)

(** A miss stays a miss as time passes, as long as nothing is stored. *)
Lemma miss_later (data : gmap string NodeCache.Entry) (key : string) (t0 t1 : N) :
  (t0 <= t1)%N ->
  (forall s, NodeCache.get t0 key data = Some s -> truthy s = false) ->
  forall s, NodeCache.get t1 key data = Some s -> truthy s = false.
Proof.
  unfold NodeCache.get. intros Ht Hmiss s.
  destruct (data !! key) as [e|]; [|discriminate].
  unfold NodeCache.check in *.
  destruct (N.eqb_spec (NodeCache.t e) 0) as [H0|H0]; simpl in *.
  - exact (Hmiss s).
  - destruct (N.ltb_spec (NodeCache.t e) t1) as [H1|H1]; simpl; [discriminate|].
    destruct (N.ltb_spec (NodeCache.t e) t0) as [H2|H2]; simpl in *; [lia|].
    exact (Hmiss s).
Qed.

Section MoreServerFacts.
Context `{E : Env}.

(** The world of a request with a valid URL is the world the fetcher left,
    but for the response and the console. *)
Lemma handler_valid_world (req_body url : JsValue) (ref : RepoRef) (w : World) :
  destructure_url req_body = Ok url ->
  parseGitHubUrl url = Ok (Some ref) ->
  let wf := snd (fetchRepoReadme (owner ref) (repo ref) w) in
  let w' := snd (handler req_body w) in
  cache w' = cache wf /\ clock w' = clock wf
  /\ upstream_calls w' = upstream_calls wf.
Proof.
  intros Hd Hp. unfold handler, try_catch, bind, lift. rewrite Hd. simpl.
  rewrite Hp. simpl.
  destruct (fetchRepoReadme (owner ref) (repo ref) w) as [[md|e] w1]; simpl.
  - destruct (marked_parse md) as [raw|m]; simpl;
      [destruct (sanitize raw) as [clean|m]; simpl|]; auto.
  - destruct (status_is e 404); [|destruct (status_is e 403 || status_is e 429)];
      simpl; auto.
Qed.

(** Every fetch asks the upstream at most once, and only for its own
    repository. *)
Lemma fetch_calls (o r : string) (w : World) :
  upstream_calls (snd (fetchRepoReadme o r w)) = upstream_calls w
  \/ upstream_calls (snd (fetchRepoReadme o r w)) = upstream_calls w ++ [(o, r)].
Proof.
  unfold fetchRepoReadme, bind, cache_get, request. simpl.
  destruct (NodeCache.get (clock w) (o +:+ "/" +:+ r) (cache w)) as [s|];
    [destruct (truthy s)|]; simpl;
    try destruct (result (octokit_request (clock w) o r)); simpl; auto.
Qed.


(** X5: one request costs at most one upstream call, and that call is for
    the owner and repo parsed from the request's URL. *)
Theorem one_upstream_call_per_request (req_body : JsValue) (w : World) :
  upstream_calls (snd (handler req_body w)) = upstream_calls w
  \/ exists url ref,
       destructure_url req_body = Ok url
       /\ parseGitHubUrl url = Ok (Some ref)
       /\ upstream_calls (snd (handler req_body w))
          = upstream_calls w ++ [(owner ref, repo ref)].
Proof.
  destruct (destructure_url req_body) as [url|e0] eqn:Hd.
  - destruct (parseGitHubUrl url) as [[ref|]|e1] eqn:Hp.
    + destruct (handler_valid_world req_body url ref w Hd Hp) as (_ & _ & Hc).
      rewrite Hc.
      destruct (fetch_calls (owner ref) (repo ref) w) as [->| ->]; [auto|].
      right. exists url, ref. auto.
    + left. unfold handler, try_catch, bind, lift. rewrite Hd. simpl.
      rewrite Hp. reflexivity.
    + rewrite parseGitHubUrl_eq in Hp. discriminate.
  - left. unfold handler, try_catch, bind, lift. rewrite Hd. simpl.
    destruct req_body; try discriminate; injection Hd as <-; reflexivity.
Qed.

(** X6: a cached text that is not empty and not expired is returned as it
    is; the upstream is not asked and the cache is not written. *)
Theorem cached_readme_is_served (o r s : string) (w : World) :
  NodeCache.get (clock w) (o +:+ "/" +:+ r) (cache w) = Some s ->
  s <> "" ->
  fst (fetchRepoReadme o r w) = Ok s
  /\ upstream_calls (snd (fetchRepoReadme o r w)) = upstream_calls w
  /\ cache (snd (fetchRepoReadme o r w)) = cache w
  /\ clock (snd (fetchRepoReadme o r w)) = clock w.
Proof.
  intros Hget Hs. apply truthy_true in Hs.
  rewrite (fetch_hit o r s w Hget Hs). auto.
Qed.

(** X7: a failure of the upstream is not remembered: after a miss that
    failed, the next fetch of the same repository, whenever it comes, asks
    the upstream again. *)
Theorem failed_fetch_is_retried (o r : string) (e : JsError) (w : World) (t1 : N) :
  (forall s, NodeCache.get (clock w) (o +:+ "/" +:+ r) (cache w) = Some s ->
             truthy s = false) ->
  result (octokit_request (clock w) o r) = Throw e ->
  (clock w <= t1)%N ->
  let w1 := snd (fetchRepoReadme o r w) in
  fst (fetchRepoReadme o r w) = Throw e
  /\ fst (fetchRepoReadme o r (at_time t1 w1)) = result (octokit_request t1 o r)
  /\ upstream_calls (snd (fetchRepoReadme o r (at_time t1 w1)))
     = upstream_calls w ++ [(o, r); (o, r)].
Proof.
  intros Hmiss Hfail Ht w1.
  assert (Hw1 : fetchRepoReadme o r w
                = (Throw e, snd (request o r
                     (logged ("[API Fetch] " +:+ o +:+ "/" +:+ r) w)))).
  { rewrite (fetch_miss o r w Hmiss), Hfail. reflexivity. }
  subst w1. rewrite Hw1. simpl fst. simpl snd.
  split; [reflexivity|].
  match goal with |- context [at_time t1 ?x] => set (w1 := at_time t1 x) end.
  assert (Hmiss1 : forall s,
            NodeCache.get (clock w1) (o +:+ "/" +:+ r) (cache w1) = Some s ->
            truthy s = false).
  { subst w1. simpl. now apply (miss_later _ _ (clock w) t1). }
  rewrite (fetch_miss o r w1 Hmiss1). subst w1. simpl.
  destruct (result (octokit_request t1 o r)); simpl;
    rewrite <- app_assoc; auto.
Qed.

(** X8: a fetch leaves every other repository's entry as it was: at any
    time, a [get] under another key answers as before. *)
Theorem fetch_leaves_other_keys (o r key : string) (w : World) (t : N) :
  key <> o +:+ "/" +:+ r ->
  NodeCache.get t key (cache (snd (fetchRepoReadme o r w)))
  = NodeCache.get t key (cache w).
Proof.
  intros Hne.
  destruct (fetch_cache o r w) as [->|(now & d & _ & ->)]; [reflexivity|].
  apply get_set_other. congruence.
Qed.

(** X9: the README is stored before it is rendered.  When the upstream
    answers a miss and a rendering step then fails, the request ends in the
    500 response and the text is in the cache all the same. *)
Theorem render_failure_keeps_readme (req_body url : JsValue) (ref : RepoRef)
    (data : string) (w : World) :
  destructure_url req_body = Ok url ->
  parseGitHubUrl url = Ok (Some ref) ->
  (forall s, NodeCache.get (clock w) (owner ref +:+ "/" +:+ repo ref) (cache w) = Some s ->
             truthy s = false) ->
  result (octokit_request (clock w) (owner ref) (repo ref)) = Ok data ->
  render data = Unexpected ->
  let w' := snd (handler req_body w) in
  sent w' = sent w ++ [{| code := 500; body := ErrorBody internal_error_message |}]
  /\ NodeCache.get (clock w') (owner ref +:+ "/" +:+ repo ref) (cache w') = Some data.
Proof.
  intros Hd Hp Hmiss Hok Hrender w'. subst w'.
  destruct (handler_run req_body w) as [_ Hsent].
  destruct (handler_valid_world req_body url ref w Hd Hp) as (Hc & Hk & _).
  destruct (fetch_miss_stored (owner ref) (repo ref) data w Hmiss Hok)
    as (_ & Hstored & _).
  split.
  - rewrite Hsent. unfold outcome_of. rewrite Hd, Hp.
    rewrite (fetch_miss _ _ w Hmiss), Hok. simpl. now rewrite Hrender.
  - rewrite Hc, Hk, Hstored. apply get_set_alive. lia.
Qed.

(** X10: no response carries anything but the sanitized HTML or one of the
    four fixed messages, each under its own status code; what the upstream
    or a library said in its error stays on the console. *)
Theorem response_bodies_are_fixed (req_body : JsValue) (w : World) :
  exists resp,
    sent (snd (handler req_body w)) = sent w ++ [resp]
    /\ match body resp with
       | HtmlBody _ => code resp = 200%Z
       | ErrorBody m =>
           In (code resp, m)
              [(400%Z, invalid_url_message); (404%Z, not_found_message);
               (429%Z, rate_limit_message); (500%Z, internal_error_message)]
       end.
Proof.
  destruct (handler_run req_body w) as [_ Hsent].
  exists (response_for (outcome_of req_body w)). split; [exact Hsent|].
  destruct (outcome_of req_body w); simpl; auto 6.
Qed.

End MoreServerFacts.


(** A server that has answered one request for [octocat/Hello-World]. *)
Lemma cached_readme_is_served_witness :
  let w := at_time 900000
             (snd (fetchRepoReadme (E := ref_env) "octocat" "Hello-World" (boot 1000))) in
  fst (fetchRepoReadme (E := ref_env) "octocat" "Hello-World" w) = Ok "Hello World!"
  /\ upstream_calls (snd (fetchRepoReadme (E := ref_env) "octocat" "Hello-World" w))
     = upstream_calls w
  /\ cache (snd (fetchRepoReadme (E := ref_env) "octocat" "Hello-World" w)) = cache w
  /\ clock (snd (fetchRepoReadme (E := ref_env) "octocat" "Hello-World" w)) = clock w.
Proof.
  apply (cached_readme_is_served (E := ref_env) "octocat" "Hello-World" "Hello World!").
  - vm_compute. reflexivity.
  - discriminate.
Defined.

Lemma failed_fetch_is_retried_witness :
  let w1 := snd (fetchRepoReadme (E := ref_env) "octocat" "flaky" (boot 1000)) in
  fst (fetchRepoReadme (E := ref_env) "octocat" "flaky" (boot 1000))
  = Throw (RequestError 502 "Bad Gateway")
  /\ fst (fetchRepoReadme (E := ref_env) "octocat" "flaky" (at_time 5000 w1))
     = result (ref_octokit_request 5000 "octocat" "flaky")
  /\ upstream_calls (snd (fetchRepoReadme (E := ref_env) "octocat" "flaky" (at_time 5000 w1)))
     = upstream_calls (boot 1000) ++ [("octocat", "flaky"); ("octocat", "flaky")].
Proof.
  apply (failed_fetch_is_retried (E := ref_env) "octocat" "flaky"
           (RequestError 502 "Bad Gateway") (boot 1000) 5000).
  - intros s Hs. vm_compute in Hs. discriminate Hs.
  - reflexivity.
  - simpl. lia.
Defined.

Lemma fetch_leaves_other_keys_witness :
  let w := snd (fetchRepoReadme (E := ref_env) "octocat" "Hello-World" (boot 1000)) in
  NodeCache.get 2000 "octocat/Hello-World"
    (cache (snd (fetchRepoReadme (E := ref_env) "octocat" "empty" w)))
  = NodeCache.get 2000 "octocat/Hello-World" (cache w).
Proof.
  apply (fetch_leaves_other_keys (E := ref_env) "octocat" "empty" "octocat/Hello-World").
  discriminate.
Defined.

Lemma render_failure_keeps_readme_witness :
  let w' := snd (handler (E := broken_marked_env)
                   (post "https://github.com/octocat/Hello-World") (boot 1000)) in
  sent w' = sent (boot 1000)
            ++ [{| code := 500; body := ErrorBody internal_error_message |}]
  /\ NodeCache.get (clock w') "octocat/Hello-World" (cache w') = Some "Hello World!".
Proof.
  apply (render_failure_keeps_readme (E := broken_marked_env)
           (post "https://github.com/octocat/Hello-World")
           (JsString "https://github.com/octocat/Hello-World")
           {| owner := "octocat"; repo := "Hello-World" |} "Hello World!" (boot 1000)).
  - reflexivity.
  - vm_compute. reflexivity.
  - intros s Hs. vm_compute in Hs. discriminate Hs.
  - reflexivity.
  - reflexivity.
Defined.

Lemma second_fetch_within_ttl_witness :
  let w1 := snd (fetchRepoReadme (E := ref_env) "octocat" "Hello-World" (boot 1000)) in
  fst (fetchRepoReadme (E := ref_env) "octocat" "Hello-World" (at_time 3601120 w1))
  = Ok "Hello World!"
  /\ upstream_calls (snd (fetchRepoReadme (E := ref_env) "octocat" "Hello-World"
                            (at_time 3601120 w1)))
     = upstream_calls w1.
Proof.
  apply (second_fetch_within_ttl (E := ref_env) "octocat" "Hello-World" "Hello World!"
           (boot 1000) 3601120).
  - intros s Hs. vm_compute in Hs. discriminate Hs.
  - reflexivity.
  - discriminate.
  - vm_compute. discriminate.
Defined.

Lemma second_fetch_after_ttl_witness :
  let w1 := snd (fetchRepoReadme (E := ref_env) "octocat" "Hello-World" (boot 1000)) in
  fst (fetchRepoReadme (E := ref_env) "octocat" "Hello-World" (at_time 3601121 w1))
  = result (ref_octokit_request 3601121 "octocat" "Hello-World")
  /\ upstream_calls (snd (fetchRepoReadme (E := ref_env) "octocat" "Hello-World"
                            (at_time 3601121 w1)))
     = upstream_calls w1 ++ [("octocat", "Hello-World")].
Proof.
  apply (second_fetch_after_ttl (E := ref_env) "octocat" "Hello-World" "Hello World!"
           (boot 1000) 3601121).
  - intros s Hs. vm_compute in Hs. discriminate Hs.
  - reflexivity.
  - vm_compute. reflexivity.
Defined.

(* ===================================================================== *)
(** ** The page script *)
(* ===================================================================== *)

Lemma hidden_is_not_loading : "hidden" <> "is-loading".
Proof. discriminate. Qed.

Section PageFacts.
Context `{B : Browser}.

(** The page once the listener has run on a non-blank input. *)
Lemma submit_eq (p : Page) :
  truthy (trim (input_value p)) = true ->
  submit p
  = toggleLoading false
      match attempt (trim (input_value p)) with
      | Ok html =>
          render_output html
            (record_request (trim (input_value p)) (toggleLoading true p))
      | Throw err =>
          showError (err_message err)
            (record_request (trim (input_value p)) (toggleLoading true p))
      end.
Proof. intros H. unfold submit. rewrite H. reflexivity. Qed.

(** X13: a submit sends a request only when the input, trimmed, is not
    empty.  A blank input leaves the page exactly as it was; otherwise one
    request goes out, carrying the trimmed text, and the input field keeps
    what was typed. *)
Theorem submit_requests (p : Page) :
  (trim (input_value p) = "" -> submit p = p)
  /\ (trim (input_value p) <> "" ->
      requests (submit p) = requests p ++ [trim (input_value p)]
      /\ input_value (submit p) = input_value p).
Proof.
  split.
  - intros H. unfold submit. rewrite H. reflexivity.
  - intros H. apply truthy_true in H. rewrite (submit_eq p H).
    destruct (attempt (trim (input_value p))); simpl; auto.
Qed.

(** X14: however the request ends, the loading state ends with it: the
    button is enabled again and the spinner class is gone. *)
Theorem submit_ends_loading (p : Page) :
  trim (input_value p) <> "" ->
  submitBtn_disabled (submit p) = false
  /\ ("is-loading" ∉ contentArea_classList (submit p)).
Proof.
  intros H. apply truthy_true in H. rewrite (submit_eq p H).
  destruct (attempt (trim (input_value p))); simpl; split; auto; set_solver.
Qed.



(** X17: a response that is [ok] but whose JSON object has no [html] is
    taken for a success: the content area shows the text [undefined]. *)
Theorem ok_without_html_shows_undefined (p : Page) (res : FetchResponse)
    (fields : list (string * JsValue)) :
  trim (input_value p) <> "" ->
  fetch (trim (input_value p)) = Ok res ->
  ok res = true ->
  json res = Ok (JsObject fields) ->
  get_field "html" fields = JsUndefined ->
  markdownOutput_innerHTML (submit p) = "undefined"
  /\ ("hidden" ∉ contentArea_classList (submit p)).
Proof.
  intros H Hf Hok Hj Hh. apply truthy_true in H. rewrite (submit_eq p H).
  pose proof hidden_is_not_loading as Hne.
  unfold attempt, ExcMonad.bind. rewrite Hf, Hj, Hok. simpl. rewrite Hh. simpl.
  split; [reflexivity|set_solver].
Qed.

(** X18: closing twice is closing once, and a submit right after closing
    does nothing, the input having been cleared (trimming the empty string
    gives the empty string). *)
Theorem resetView_then (p : Page) :
  resetView (resetView p) = resetView p
  /\ (trim "" = "" -> submit (resetView p) = resetView p).
Proof.
  split.
  - unfold resetView. simpl. f_equal; set_solver.
  - intros H. unfold submit. simpl. rewrite H. reflexivity.
Qed.

End PageFacts.

(* ===================================================================== *)
(** ** The page and the server together *)
(* ===================================================================== *)

Section EndToEnd.
Context `{E : Env}.

(** What [fetch] resolves to when this server answers. *)
Lemma served_by_eq (w : World) (url : string) :
  served_by w url = Ok (wire (response_for (outcome_of (post url) w))).
Proof.
  unfold served_by. destruct (handler_run (post url) w) as [_ ->].
  rewrite rev_app_distr. reflexivity.
Qed.

Lemma attempt_served (trim_fn : string -> string) (w : World) (url : string) :
  attempt (B := browser_of trim_fn w) url
  = match outcome_of (post url) w with
    | Success html => Ok (JsString html)
    | o => Throw (PlainError (message_of o))
    end.
Proof.
  unfold attempt, ExcMonad.bind. simpl. rewrite served_by_eq.
  destruct (outcome_of (post url) w); reflexivity.
Qed.

(** X19: the page shows what the server decided.  On success the content
    area is visible and holds exactly the HTML of the 200 response; on any
    other outcome the error line is visible with the message of that
    response (one of the four fixed texts), the content area is hidden and
    empty. *)
Theorem page_shows_server_outcome (trim_fn : string -> string) (w : World) (p : Page) :
  trim_fn (input_value p) <> "" ->
  let p' := submit (B := browser_of trim_fn w) p in
  match outcome_of (post (trim_fn (input_value p))) w with
  | Success html =>
      markdownOutput_innerHTML p' = html
      /\ ("hidden" ∉ contentArea_classList p')
      /\ ("hidden" ∈ errorMsg_classList p')
  | o =>
      errorMsg_textContent p' = message_of o
      /\ ("hidden" ∈ contentArea_classList p')
      /\ ("hidden" ∉ errorMsg_classList p')
      /\ markdownOutput_innerHTML p' = ""
  end.
Proof.
  intros H p'. subst p'. apply truthy_true in H.
  rewrite (submit_eq (B := browser_of trim_fn w) p H).
  change (@trim (browser_of trim_fn w)) with trim_fn.
  rewrite attempt_served.
  pose proof hidden_is_not_loading as Hne.
  destruct (outcome_of (post (trim_fn (input_value p))) w);
    simpl; repeat split; auto; set_solver.
Qed.

End EndToEnd.

Lemma page_shows_server_outcome_witness :
  let p' := submit (B := ref_browser)
              (typed "  https://github.com/octocat/Hello-World  " blank_page) in
  markdownOutput_innerHTML p' = "<p>Hello World!</p>"
  /\ ("hidden" ∉ contentArea_classList p')
  /\ ("hidden" ∈ errorMsg_classList p').
Proof.
  apply (page_shows_server_outcome (E := ref_env) ref_trim (boot 1000)
           (typed "  https://github.com/octocat/Hello-World  " blank_page)).
  vm_compute. discriminate.
Defined.

Lemma submit_requests_witness :
  submit (B := ref_browser) (typed "   " blank_page) = typed "   " blank_page
  /\ requests (submit (B := ref_browser) (typed " not-a-url " blank_page))
     = ["not-a-url"].
Proof.
  split.
  - apply (proj1 (submit_requests (B := ref_browser) (typed "   " blank_page))).
    reflexivity.
  - apply (proj2 (submit_requests (B := ref_browser) (typed " not-a-url " blank_page))).
    vm_compute. discriminate.
Defined.

Lemma submit_ends_loading_witness :
  submitBtn_disabled (submit (B := ref_browser) (typed "not-a-url" blank_page)) = false
  /\ ("is-loading"
      ∉ contentArea_classList (submit (B := ref_browser) (typed "not-a-url" blank_page))).
Proof.
  apply (submit_ends_loading (B := ref_browser) (typed "not-a-url" blank_page)).
  vm_compute. discriminate.
Defined.



(** A numeric [error] is shown the way JavaScript prints the number. *)
Example numeric_error_message :
  errorMsg_textContent
    (submit (B := numeric_error_browser)
       (typed "https://github.com/octocat/Hello-World" blank_page))
  = "1e+21".
Proof. vm_compute. reflexivity. Qed.

Lemma ok_without_html_shows_undefined_witness :
  markdownOutput_innerHTML
    (submit (B := odd_browser) (typed "https://github.com/octocat/Hello-World" blank_page))
  = "undefined"
  /\ ("hidden"
      ∉ contentArea_classList
          (submit (B := odd_browser)
             (typed "https://github.com/octocat/Hello-World" blank_page))).
Proof.
  apply (ok_without_html_shows_undefined (B := odd_browser)
           (typed "https://github.com/octocat/Hello-World" blank_page)
           {| ok := true; json := Ok (JsObject []) |} []).
  - vm_compute. discriminate.
  - reflexivity.
  - reflexivity.
  - reflexivity.
  - reflexivity.
Defined.

Lemma resetView_then_witness :
  submit (B := ref_browser) (resetView (typed "https://github.com/octocat/x" blank_page))
  = resetView (typed "https://github.com/octocat/x" blank_page).
Proof.
  apply (proj2 (resetView_then (B := ref_browser)
                  (typed "https://github.com/octocat/x" blank_page))).
  reflexivity.
Defined.
